(** * amz-calc: the item ledger of [src/app/app.ts]

    A shallow embedding of the component class [App]: its item collection,
    the derived totals, the sanitising entry points (load, add/update,
    import), removal, the JSON interchange and the CSV export.

    JavaScript numbers are IEEE-754 doubles; they are modelled by Rocq's
    primitive binary64 floats, so that NaN, the infinities and the two zeros
    behave as they do in the browser. *)

From Stdlib Require Import List String Ascii NArith Nnat ZArith Bool Lia.
From Stdlib Require Import Permutation.
From Stdlib Require Import Floats DecimalString.
Import ListNotations.
Local Open Scope string_scope.

(** ** JavaScript values

    The values the component meets are the results of [JSON.parse] and the
    contents of the form's controls: primitives, arrays and plain objects.
    A plain object is the list of its own properties, each key at most once;
    reading a key that is not there gives [undefined]. *)

Set Warnings "-register-all".

Inductive prim : Type :=
| PUndefined
| PNull
| PBool (b : bool)
| PNum (x : float)
| PStr (s : string).

Inductive value : Type :=
| VPrim (p : prim)
| VArr (elements : list value)
| VObj (props : list (string * value)).

Coercion VPrim : prim >-> value.

Definition undefined : value := VPrim PUndefined.

(** [p.k] on the own properties of an object. *)
Fixpoint lookup (k : string) (props : list (string * value)) : value :=
  match props with
  | [] => undefined
  | (k', v) :: rest => if String.eqb k k' then v else lookup k rest
  end.

Definition has_key (k : string) (props : list (string * value)) : bool :=
  existsb (fun kv => String.eqb k (fst kv)) props.

(** ** Truthiness and [x || 0] *)

(** A number is falsy when it is [+0], [-0] or [NaN]. *)
Definition num_truthy (x : float) : bool := negb (is_zero x || is_nan x).

(** [!!v]: objects and arrays are always truthy. *)
Definition truthy (v : value) : bool :=
  match v with
  | VPrim PUndefined => false
  | VPrim PNull => false
  | VPrim (PBool b) => b
  | VPrim (PNum x) => num_truthy x
  | VPrim (PStr s) => negb (String.eqb s "")
  | VArr _ => true
  | VObj _ => true
  end.

(** [x || 0] for a number [x]. *)
Definition or0 (x : float) : float := if num_truthy x then x else zero.

(** ** The host

    What the browser supplies and the source only calls: the conversion of a
    string to a number ([StringToNumber] of ECMAScript, used by [Number(s)]),
    the decimal rendering of a number ([Number::toString], used by
    [String(x)]), the clock and the random source.  The [k]-th identifier the
    component generates reads [Date_now k] and the base-36 rendering
    [Math_random36 k] of the [k]-th [Math.random()]. *)

Record Host : Type := mkHost {
  StringToNumber : string -> float;
  NumberToString : float -> string;
  Date_now : nat -> Z;
  Math_random36 : nat -> string
}.

Section Conversions.
Variable h : Host.

Definition prim_ToString (p : prim) : string :=
  match p with
  | PUndefined => "undefined"
  | PNull => "null"
  | PBool true => "true"
  | PBool false => "false"
  | PNum x => NumberToString h x
  | PStr s => s
  end.

(** [String(v)]; [None] stands for a thrown [TypeError].  An array is
    joined with commas ([undefined] and [null] elements give the empty
    string); a plain object gives ["[object Object]"], unless an own
    property named [toString] (never callable in parsed JSON) hides the
    inherited method, in which case the conversion throws. *)
Fixpoint ToString (v : value) : option string :=
  match v with
  | VPrim p => Some (prim_ToString p)
  | VArr l =>
      (fix join (l : list value) : option string :=
         match l with
         | [] => Some ""
         | e :: rest =>
             match
               match e with
               | VPrim PUndefined => Some ""
               | VPrim PNull => Some ""
               | _ => ToString e
               end
             with
             | None => None
             | Some s =>
                 match rest with
                 | [] => Some s
                 | _ :: _ =>
                     match join rest with
                     | None => None
                     | Some t => Some (s ++ "," ++ t)
                     end
                 end
             end
         end) l
  | VObj props =>
      if has_key "toString" props then None else Some "[object Object]"
  end.

Definition prim_ToNumber (p : prim) : float :=
  match p with
  | PUndefined => nan
  | PNull => zero
  | PBool true => one
  | PBool false => zero
  | PNum x => x
  | PStr s => StringToNumber h s
  end.

(** [Number(v)]; an object or an array is first converted to a string. *)
Definition Number (v : value) : option float :=
  match v with
  | VPrim p => Some (prim_ToNumber p)
  | _ => option_map (StringToNumber h) (ToString v)
  end.

(** [Number(v) || 0], the expression every entry point assigns to the four
    numeric fields. *)
Definition coerce (v : value) : option float := option_map or0 (Number v).

End Conversions.

(** ** Strict equality

    [a === b].  Numbers compare as IEEE-754 does ([NaN] differs from itself,
    the two zeros are equal), values of different types differ, and a
    primitive is never [===] to an object or an array: whenever one side is
    a primitive, [strict_eq] is [===].  Two objects are [===] when they are
    one and the same object.  The values of this model are trees without
    identity; on two compound values [strict_eq] compares the trees, which
    is [===] only where equal trees are one object (as the id of an entry
    and its copy in the form are, in a ledger whose ids differ pairwise).
    What the properties below say of [remove] and of the update through
    this comparison, they say for comparisons that a primitive decides
    ([by_value]); the interface types [id] as a string, where the
    comparison is that of the characters. *)

Definition prim_eqb (a b : prim) : bool :=
  match a, b with
  | PUndefined, PUndefined => true
  | PNull, PNull => true
  | PBool x, PBool y => Bool.eqb x y
  | PNum x, PNum y => Leibniz.eqb x y
  | PStr s, PStr t => String.eqb s t
  | _, _ => false
  end.

Fixpoint value_eqb (a b : value) : bool :=
  match a, b with
  | VPrim p, VPrim q => prim_eqb p q
  | VArr l, VArr m =>
      (fix all2 (l m : list value) : bool :=
         match l, m with
         | [], [] => true
         | x :: l', y :: m' => value_eqb x y && all2 l' m'
         | _, _ => false
         end) l m
  | VObj p, VObj q =>
      (fix all2 (p q : list (string * value)) : bool :=
         match p, q with
         | [], [] => true
         | (k, x) :: p', (k', y) :: q' =>
             String.eqb k k' && value_eqb x y && all2 p' q'
         | _, _ => false
         end) p q
  | _, _ => false
  end.

Definition prim_strict_eq (a b : prim) : bool :=
  match a, b with
  | PUndefined, PUndefined => true
  | PNull, PNull => true
  | PBool x, PBool y => Bool.eqb x y
  | PNum x, PNum y => PrimFloat.eqb x y
  | PStr s, PStr t => String.eqb s t
  | _, _ => false
  end.

Definition strict_eq (a b : value) : bool :=
  match a, b with
  | VPrim p, VPrim q => prim_strict_eq p q
  | VPrim _, _ => false
  | _, VPrim _ => false
  | _, _ => value_eqb a b
  end.

Definition is_primitive (v : value) : bool :=
  match v with
  | VPrim _ => true
  | _ => false
  end.

(** ** Items

    [interface Item].  The four numeric properties are numbers in every
    object the component stores: each entry point assigns them the value of
    [Number(..) || 0] before the object reaches the collection.  [id] and
    [name] are whatever the input held ([undefined] when it held nothing).
    [others] are the remaining own properties of the object, which the
    component never reads; [elements] is [Some l] when the object is an
    array (an array in the imported file is an object too, and receives the
    same properties). *)

Record Item : Type := mkItem {
  id : value;
  name : value;
  price : float;
  cost : float;
  amazonFees : float;
  sold : float;
  others : list (string * value);
  elements : option (list value)
}.

Definition item_keys : list string :=
  ["id"; "name"; "price"; "cost"; "amazonFees"; "sold"].

Definition is_item_key (k : string) : bool :=
  existsb (String.eqb k) item_keys.

Definition other_props (props : list (string * value)) : list (string * value) :=
  filter (fun kv => negb (is_item_key (fst kv))) props.

Definition set_id (it : Item) (v : value) : Item :=
  mkItem v (name it) (price it) (cost it) (amazonFees it) (sold it)
         (others it) (elements it).

(** ** Aggregation (lines 71-85 and 108-110) *)

Definition totalSold (arr : list Item) : float :=
  fold_left (fun s it => (s + or0 (sold it))%float) arr zero.

Definition totalRevenue (arr : list Item) : float :=
  fold_left (fun s it => (s + or0 (price it) * or0 (sold it))%float) arr zero.

Definition totalCost (arr : list Item) : float :=
  fold_left (fun s it => (s + or0 (cost it) * or0 (sold it))%float) arr zero.

Definition totalFees (arr : list Item) : float :=
  fold_left (fun s it => (s + or0 (amazonFees it) * or0 (sold it))%float) arr zero.

Definition totalProfit (arr : list Item) : float :=
  (totalRevenue arr - totalCost arr - totalFees arr)%float.

Definition perItemProfit (item : Item) : float :=
  ((or0 (price item) - or0 (cost item) - or0 (amazonFees item))
   * or0 (sold item))%float.

(** ** JSON texts

    A text (the content of the storage slot, of an uploaded or of a
    downloaded file) is known by what [JSON.parse] makes of it: a
    [SyntaxError], or the parsed value.  The empty string is kept apart
    because the constructor tests [if (saved)].  Key order and whitespace of
    a text are not modelled. *)

Inductive text : Type :=
| TEmpty
| TMalformed
| TDoc (v : value).

Definition JSON_parse (t : text) : option value :=
  match t with
  | TDoc v => Some v
  | _ => None
  end.

(** What [JSON.parse] reads back from the text [JSON.stringify] writes for a
    number: a finite number returns as itself ([-0] is written [0]); [NaN]
    and the infinities are written [null]. *)
Definition json_num (x : float) : value :=
  if is_finite x then (if is_zero x then PNum zero else PNum x) else PNull.

(** The same for a nested value: an [undefined] array element is written
    [null], an [undefined] property is left out. *)
Fixpoint json_of (v : value) : value :=
  match v with
  | VPrim PUndefined => PNull
  | VPrim (PNum x) => json_num x
  | VPrim p => VPrim p
  | VArr l => VArr (map json_of l)
  | VObj props =>
      VObj ((fix go (props : list (string * value)) : list (string * value) :=
               match props with
               | [] => []
               | (k, VPrim PUndefined) :: rest => go rest
               | (k, v) :: rest => (k, json_of v) :: go rest
               end) props)
  end.

Fixpoint json_props (props : list (string * value)) : list (string * value) :=
  match props with
  | [] => []
  | (k, VPrim PUndefined) :: rest => json_props rest
  | (k, v) :: rest => (k, json_of v) :: json_props rest
  end.

Definition item_props (it : Item) : list (string * value) :=
  [("id", id it); ("name", name it);
   ("price", VPrim (PNum (price it))); ("cost", VPrim (PNum (cost it)));
   ("amazonFees", VPrim (PNum (amazonFees it)));
   ("sold", VPrim (PNum (sold it)))] ++ others it.

(** An item that is an array is written as the array of its elements: the
    named properties of an array are not serialised. *)
Definition item_json (it : Item) : value :=
  match elements it with
  | Some l => VArr (map json_of l)
  | None => VObj (json_props (item_props it))
  end.

(** [JSON.stringify(this.items())], as the value its text parses to. *)
Definition JSON_stringify (arr : list Item) : text :=
  TDoc (VArr (map item_json arr)).

(** ** The component state

    [items] is the signal; [storage] the slot ['amazon-items'] of
    [localStorage] ([None] when [getItem] returns [null]); [alerts] and
    [console] collect what [alert] and [console.warn]/[console.log] were
    given, latest first; [tick] counts the identifiers generated so far.
    Writes to the storage are taken to succeed. *)

Record App : Type := mkApp {
  items : list Item;
  storage : option text;
  alerts : list string;
  console : list string;
  tick : nat
}.

Definition set_items (st : App) (arr : list Item) : App :=
  mkApp arr (storage st) (alerts st) (console st) (tick st).

Definition set_tick (st : App) (k : nat) : App :=
  mkApp (items st) (storage st) (alerts st) (console st) k.

Definition alert (msg : string) (st : App) : App :=
  mkApp (items st) (storage st) (msg :: alerts st) (console st) (tick st).

Definition console_log (msg : string) (st : App) : App :=
  mkApp (items st) (storage st) (alerts st) (msg :: console st) (tick st).

(** [saveLocal] (lines 146-148). *)
Definition saveLocal (st : App) : App :=
  mkApp (items st) (Some (JSON_stringify (items st))) (alerts st)
        (console st) (tick st).

(** [remove] (lines 140-143). *)
Definition remove (item : Item) (st : App) : App :=
  saveLocal
    (set_items st
       (filter (fun i => negb (strict_eq (id i) (id item))) (items st))).

(** The file [downloadJSON] offers (lines 151-159): its name and content. *)
Definition downloadJSON (st : App) : string * text :=
  ("amazon-items.json", JSON_stringify (items st)).

(** ** Identifiers

    [Date.now().toString(36) + Math.random().toString(36).slice(2, 7)]. *)

Definition digit36 (n : N) : ascii :=
  nth (N.to_nat n)
      (list_ascii_of_string "0123456789abcdefghijklmnopqrstuvwxyz") "0"%char.

Fixpoint to36 (fuel : nat) (n : N) : string :=
  match fuel with
  | O => String (digit36 n) ""
  | S fuel' =>
      if (n <? 36)%N then String (digit36 n) ""
      else to36 fuel' (n / 36) ++ String (digit36 (n mod 36)) ""
  end.

(** [z.toString(36)] for an integer [z]; the fuel exceeds the number of
    digits. *)
Definition toString36 (z : Z) : string :=
  let n := Z.abs_N z in
  let digits := to36 (N.to_nat (N.log2 n)) n in
  if (z <? 0)%Z then "-" ++ digits else digits.

(** [s.slice(2, 7)] *)
Definition slice_2_7 (s : string) : string := substring 2 5 s.

(** The form's value ([this.form.value]): the six controls.  The numeric
    controls hold primitives (a number, [null] or the typed string). *)
Record FormValue : Type := mkFormValue {
  f_id : value;
  f_name : value;
  f_price : prim;
  f_cost : prim;
  f_amazonFees : prim;
  f_sold : prim
}.

Notation "x <- a ;; b" :=
  (match a with
   | Some x => b
   | None => None
   end) (right associativity, at level 60, a at next level).

Section Operations.
Variable h : Host.

Definition new_id (k : nat) : string :=
  toString36 (Date_now h k) ++ slice_2_7 (Math_random36 h k).

(** The own properties the loop body works on.  Reading a property of
    [null] and, in the strict code of a class body, writing one on a
    number, a string or a boolean throw a [TypeError]: [None]. *)
Definition own_props (p : value)
  : option (list (string * value) * option (list value)) :=
  match p with
  | VObj props => Some (props, None)
  | VArr l => Some ([], Some l)
  | VPrim _ => None
  end.

(** The numeric assignments of the loop bodies (lines 95-98, 172-175). *)
Definition sanitize (p : value) : option Item :=
  pe <- own_props p ;;
  let props := fst pe in
  price' <- coerce h (lookup "price" props) ;;
  cost' <- coerce h (lookup "cost" props) ;;
  amazonFees' <- coerce h (lookup "amazonFees" props) ;;
  sold' <- coerce h (lookup "sold" props) ;;
  Some (mkItem (lookup "id" props) (lookup "name" props)
               price' cost' amazonFees' sold'
               (other_props props) (snd pe)).

(** [parsed.forEach(..)] of the constructor: the first exception ends the
    loop. *)
Fixpoint sanitize_all (entries : list value) : option (list Item) :=
  match entries with
  | [] => Some []
  | p :: rest =>
      it <- sanitize p ;;
      arr <- sanitize_all rest ;;
      Some (it :: arr)
  end.

(** The constructor (lines 87-105), given what [getItem] returned. *)
Definition load_items (saved : text) : option (list Item) :=
  match JSON_parse saved with
  | Some (VArr entries) => sanitize_all entries
  | _ => None
  end.

Definition constructor (saved : option text) : App :=
  let fresh := mkApp [] saved [] [] 0 in
  match saved with
  | None => fresh
  | Some TEmpty => fresh
  | Some t =>
      match load_items t with
      | Some arr => set_items fresh arr
      | None => console_log "Failed to parse saved items" fresh
      end
  end.

(** [{ ...val }] after the assignments of lines 117-120, with [val.id]
    as given. *)
Definition normalize (val : FormValue) (i : value) : Item :=
  mkItem i (f_name val)
         (or0 (prim_ToNumber h (f_price val)))
         (or0 (prim_ToNumber h (f_cost val)))
         (or0 (prim_ToNumber h (f_amazonFees val)))
         (or0 (prim_ToNumber h (f_sold val)))
         [] None.

(** [addOrUpdate] (lines 113-132); [invalid] is [this.form.invalid]. *)
Definition addOrUpdate (invalid : bool) (val : FormValue) (st : App) : App :=
  if invalid then st
  else if truthy (f_id val) then
    saveLocal
      (set_items st
         (map (fun i => if strict_eq (id i) (f_id val)
                        then normalize val (f_id val) else i)
              (items st)))
  else
    saveLocal
      (set_items (set_tick st (S (tick st)))
         (items st ++ [normalize val (PStr (new_id (tick st)))])).

(** The loop body of the import (lines 172-176): the identifier is
    generated after the numeric assignments, for a falsy [id]. *)
Definition import_entry (p : value) (k : nat) : option Item * nat :=
  match sanitize p with
  | None => (None, k)
  | Some it =>
      if truthy (id it) then (Some it, k)
      else (Some (set_id it (PStr (new_id k))), S k)
  end.

Fixpoint import_all (entries : list value) (k : nat)
  : option (list Item) * nat :=
  match entries with
  | [] => (Some [], k)
  | p :: rest =>
      match import_entry p k with
      | (None, k') => (None, k')
      | (Some it, k') =>
          match import_all rest k' with
          | (None, k'') => (None, k'')
          | (Some arr, k'') => (Some (it :: arr), k'')
          end
      end
  end.

(** [uploadJSON] (lines 162-191) at the moment [reader.onload] runs;
    [file] is [None] when no file was chosen, and otherwise the text read
    from it. *)
Definition uploadJSON (file : option text) (st : App) : App :=
  match file with
  | None => st
  | Some t =>
      match JSON_parse t with
      | None => alert "Invalid JSON file" st
      | Some (VArr entries) =>
          match import_all entries (tick st) with
          | (Some arr, k) =>
              saveLocal
                (set_items (console_log "Uploading items" (set_tick st k))
                           arr)
          | (None, k) => alert "Invalid JSON file" (set_tick st k)
          end
      | Some _ => alert "Uploaded JSON must be an array of items" st
      end
  end.

End Operations.

(** ** CSV export (lines 194-236) *)

Definition dquote : ascii := ascii_of_nat 34.
Definition newline : string := String (ascii_of_nat 10) "".

(** The [replace] of line 222: every double quote of [s] is doubled. *)
Fixpoint escape (s : string) : string :=
  match s with
  | EmptyString => EmptyString
  | String c rest =>
      if Ascii.eqb c dquote then String dquote (String dquote (escape rest))
      else String c (escape rest)
  end.

(** The template literal that wraps [s] in double quotes. *)
Definition wrap (s : string) : string :=
  String dquote (s ++ String dquote "").

Fixpoint all_some {A : Type} (l : list (option A)) : option (list A) :=
  match l with
  | [] => Some []
  | x :: rest =>
      y <- x ;;
      ys <- all_some rest ;;
      Some (y :: ys)
  end.

Section CsvExport.
Variable h : Host.

Definition header : list value :=
  map (fun s => VPrim (PStr s))
      ["name"; "price"; "cost"; "amazonFees"; "sold"; "profit"].

Definition row (it : Item) : list value :=
  [name it; VPrim (PNum (price it)); VPrim (PNum (cost it));
   VPrim (PNum (amazonFees it)); VPrim (PNum (sold it));
   VPrim (PNum (perItemProfit it))].

Definition totalsRow (arr : list Item) : list value :=
  [VPrim (PStr "TOTALS"); VPrim (PNum (totalRevenue arr));
   VPrim (PNum (totalCost arr)); VPrim (PNum (totalFees arr));
   VPrim (PNum (totalSold arr)); VPrim (PNum (totalProfit arr))].

Definition allRows (arr : list Item) : list (list value) :=
  header :: map row arr ++ [totalsRow arr].

Definition cell_text (cell : value) : option string :=
  s <- ToString h cell ;;
  Some (wrap (escape s)).

Definition row_text (r : list value) : option string :=
  cells <- all_some (map cell_text r) ;;
  Some (String.concat "," cells).

Definition csv (rows : list (list value)) : option string :=
  lines <- all_some (map row_text rows) ;;
  Some (String.concat newline lines).

(** The file [exportCSV] offers: its name and content; [None] when
    [String(cell)] throws, which ends the handler before any file is
    offered. *)
Definition exportCSV (st : App) : option (string * string) :=
  content <- csv (allRows (items st)) ;;
  Some ("amazon-items.csv", content).

End CsvExport.

(** ** The states the component goes through

    A state is reached by the constructor, whatever the storage slot holds,
    followed by any sequence of the handlers that change the collection. *)

Inductive reachable (h : Host) : App -> Prop :=
| reach_constructor (saved : option text) :
    reachable h (constructor h saved)
| reach_addOrUpdate (invalid : bool) (val : FormValue) (st : App) :
    reachable h st -> reachable h (addOrUpdate h invalid val st)
| reach_remove (item : Item) (st : App) :
    reachable h st -> reachable h (remove item st)
| reach_uploadJSON (file : option text) (st : App) :
    reachable h st -> reachable h (uploadJSON h file st).

(** ** A host to run examples on

    Exact where the examples use it: [sample_StringToNumber] on the empty
    string, on strings of at most fifteen decimal digits and on the string
    x, which is no numeric literal; [sample_NumberToString] on integers of
    magnitude below 10^21, on the infinities and on [NaN]. *)

Fixpoint digits_value (s : string) (acc : N) : option N :=
  match s with
  | EmptyString => Some acc
  | String c rest =>
      let n := nat_of_ascii c in
      if ((48 <=? n) && (n <=? 57))%nat
      then digits_value rest (acc * 10 + N.of_nat (n - 48))
      else None
  end.

Definition sample_StringToNumber (s : string) : float :=
  if (String.length s =? 0)%nat then zero
  else if (String.length s <=? 15)%nat then
    match digits_value s 0 with
    | Some n => of_uint63 (Uint63.of_Z (Z.of_N n))
    | None => nan
    end
  else nan.

Definition sample_NumberToString (x : float) : string :=
  match Prim2SF x with
  | S754_zero _ => "0"
  | S754_infinity false => "Infinity"
  | S754_infinity true => "-Infinity"
  | S754_nan => "NaN"
  | S754_finite s m e =>
      let n := if (0 <=? e)%Z then (Zpos m * 2 ^ e)%Z
               else (Zpos m / 2 ^ (- e))%Z in
      let digits := NilZero.string_of_uint (N.to_uint (Z.to_N n)) in
      if s then "-" ++ digits else digits
  end.

Definition sample_host : Host :=
  mkHost sample_StringToNumber sample_NumberToString
         (fun k => (1700000000000 + Z.of_nat k)%Z)
         (fun _ => "0.4fzyo82mvyr").

(** ** Reference definitions *)

(** What [Number(..) || 0] returns: a number that is neither [NaN] nor the
    negative zero. *)
Definition clean (x : float) : Prop :=
  is_nan x = false /\ (is_zero x = true -> x = zero).

Definition item_ok (it : Item) : Prop :=
  clean (price it) /\ clean (cost it) /\ clean (amazonFees it)
  /\ clean (sold it).

(** The [others] of an item hold none of the six properties of the
    interface. *)
Definition item_wf (it : Item) : Prop :=
  Forall (fun kv => is_item_key (fst kv) = false) (others it).

(** The sum of [f] over a collection: double-precision additions, taken in
    collection order from [0]. *)
Definition Sigma (f : Item -> float) (arr : list Item) : float :=
  fold_left (fun s it => (s + f it)%float) arr zero.

(** [kept_entries v arr arr']: [arr'] is [arr] without the entries whose id
    is [===] to [v], the others standing as they are and in their order. *)
Inductive kept_entries (v : value) : list Item -> list Item -> Prop :=
| kept_nil : kept_entries v [] []
| kept_keep (i : Item) (arr arr' : list Item) :
    strict_eq (id i) v = false ->
    kept_entries v arr arr' -> kept_entries v (i :: arr) (i :: arr')
| kept_drop (i : Item) (arr arr' : list Item) :
    strict_eq (id i) v = true ->
    kept_entries v arr arr' -> kept_entries v (i :: arr) arr'.

(** Reading a base-36 rendering back. *)
Fixpoint index_of (c : ascii) (l : list ascii) (i : N) : N :=
  match l with
  | [] => i
  | d :: rest => if Ascii.eqb c d then i else index_of c rest (N.succ i)
  end.

Definition digit_value (c : ascii) : N :=
  index_of c (list_ascii_of_string "0123456789abcdefghijklmnopqrstuvwxyz") 0.

Fixpoint decode36 (s : string) (acc : N) : N :=
  match s with
  | EmptyString => acc
  | String c rest => decode36 rest (acc * 36 + digit_value c)
  end.

(** The ids of a collection are pairwise distinct. *)
Definition distinct_ids (arr : list Item) : Prop := NoDup (map id arr).

(** Every comparison [i.id === v] over the collection is decided by the
    values compared: [v] is a primitive, or every id of the collection
    is. *)
Definition by_value (v : value) (arr : list Item) : Prop :=
  is_primitive v = true
  \/ Forall (fun i => is_primitive (id i) = true) arr.

(** An entry the loop bodies get through without an exception. *)
Definition sanitizable (h : Host) (p : value) : Prop :=
  exists it : Item, sanitize h p = Some it.

(** What the import makes of the entry [p]: its sanitised object, with a
    generated identifier in place of a falsy [id]. *)
Definition imported (h : Host) (p : value) (it : Item) : Prop :=
  exists it0 : Item,
    sanitize h p = Some it0
    /\ ((truthy (id it0) = true /\ it = it0)
        \/ (truthy (id it0) = false
            /\ exists j : nat, it = set_id it0 (VPrim (PStr (new_id h j))))).

(** What sanitising makes of the entry [p], property by property: price,
    cost, amazonFees and sold are [Number(..) || 0] of the property of that
    name, and the id, the name and everything else are the entry's own. *)
Definition sanitised (h : Host) (p : value) (it : Item) : Prop :=
  exists (props : list (string * value)) (els : option (list value)),
    own_props p = Some (props, els)
    /\ coerce h (lookup "price" props) = Some (price it)
    /\ coerce h (lookup "cost" props) = Some (cost it)
    /\ coerce h (lookup "amazonFees" props) = Some (amazonFees it)
    /\ coerce h (lookup "sold" props) = Some (sold it)
    /\ id it = lookup "id" props
    /\ name it = lookup "name" props
    /\ others it = other_props props
    /\ elements it = els.

(** [imports h k entries arr k']: [arr] is what the import makes of the
    entries of a file, in file order, when [k] identifiers have been drawn
    before it and [k'] after it.  An entry with a truthy id is stored
    sanitised; an entry whose id is missing or falsy is stored sanitised
    with the identifier of the next draw of the clock and the random
    source, a draw that no other entry uses. *)
Inductive imports (h : Host)
  : nat -> list value -> list Item -> nat -> Prop :=
| imports_nil (k : nat) : imports h k [] [] k
| imports_kept (k k' : nat) (p : value) (it : Item)
               (rest : list value) (arr : list Item) :
    sanitised h p it -> truthy (id it) = true ->
    imports h k rest arr k' ->
    imports h k (p :: rest) (it :: arr) k'
| imports_drawn (k k' : nat) (p : value) (it : Item)
                (rest : list value) (arr : list Item) :
    sanitised h p it -> truthy (id it) = false ->
    imports h (S k) rest arr k' ->
    imports h k (p :: rest)
            (set_id it (VPrim (PStr (new_id h k))) :: arr) k'.

(** The six properties of the interface, as the specification's round trip
    compares them. *)
Definition tuple (it : Item)
  : value * value * float * float * float * float :=
  (id it, name it, price it, cost it, amazonFees it, sold it).

(** An item that a JSON text carries unharmed: a plain object whose id is
    truthy, whose id and name [JSON.stringify] writes so that [JSON.parse]
    reads them back (the name can also be absent), and whose four numbers
    are finite. *)
Definition survives_json (it : Item) : Prop :=
  elements it = None
  /\ truthy (id it) = true
  /\ json_of (id it) = id it
  /\ (name it = undefined \/ json_of (name it) = name it)
  /\ is_finite (price it) = true
  /\ is_finite (cost it) = true
  /\ is_finite (amazonFees it) = true
  /\ is_finite (sold it) = true.

(** The line the export writes for a row whose cells have the given
    texts, and the lines of the table. *)
Definition csv_line (cells : list string) : string :=
  String.concat "," (map (fun s => wrap (escape s)) cells).














(** ** Example inputs *)

(** The two items of the specification's sixth testable property (they
    carry the four numeric fields only). *)
Definition scenario6 : list Item :=
  [mkItem undefined undefined 10 4 1 3 [] None;
   mkItem undefined undefined 20 10 2 1 [] None].



(** An entry of a file with all six properties, the numbers given as JSON
    numbers. *)
Definition entry (i n : string) (p c f s : float) : value :=
  VObj [("id", VPrim (PStr i)); ("name", VPrim (PStr n));
        ("price", VPrim (PNum p)); ("cost", VPrim (PNum c));
        ("amazonFees", VPrim (PNum f)); ("sold", VPrim (PNum s))].

(** A file of one entry whose price is the JSON number -5 and whose cost is
    the JSON number 1e999, which [JSON.parse] reads as [Infinity]. *)
Definition file_negative : text :=
  TDoc (VArr [entry "a" "Widget" (-5) infinity 0 1]).

(** A file of two entries that carry the same id. *)
Definition file_duplicate : text :=
  TDoc (VArr [entry "a" "Widget" 10 4 1 3; entry "a" "Gadget" 20 10 2 1]).

(** A file that is a JSON array of one entry, [null]. *)
Definition file_null_entry : text := TDoc (VArr [VPrim PNull]).

(** The file of the specification's fifth testable property: one entry with
    the name Widget, the price and the cost given as the strings 10 and x,
    no fees, no id, and the number 5 sold. *)
Definition file_widget : text :=
  TDoc (VArr [VObj [("name", VPrim (PStr "Widget"));
                    ("price", VPrim (PStr "10"));
                    ("cost", VPrim (PStr "x"));
                    ("sold", VPrim (PNum 5))]]).

(** The state of a first start: nothing in the storage slot. *)
Definition first_start : App := constructor sample_host None.

(** The state after importing [file_negative] at a first start: one item,
    of id [a]. *)
Definition one_item : App :=
  uploadJSON sample_host (Some file_negative) first_start.

(** The state after importing [file_duplicate] at a first start. *)
Definition two_items : App :=
  uploadJSON sample_host (Some file_duplicate) first_start.

(** A valid form value whose id is [b]. *)
Definition form_b : FormValue :=
  mkFormValue (PStr "b") (PStr "Gadget") (PNum 20) (PNum 10) (PNum 2)
              (PNum 1).

(** A file of two entries of ids [a] and [b], and the state after
    importing it at a first start. *)
Definition file_ab : text :=
  TDoc (VArr [entry "a" "Widget" 10 4 1 3; entry "b" "Gadget" 20 10 2 1]).

Definition ledger_ab : App :=
  uploadJSON sample_host (Some file_ab) first_start.

(** A valid form value whose id is [b], with another name and other
    numbers than the entry of that id in [ledger_ab]. *)
Definition form_b_new : FormValue :=
  mkFormValue (PStr "b") (PStr "Gizmo") (PNum 25) (PNum 12) (PNum 3)
              (PNum 2).

(** A file of three entries, the first and the last without id. *)
Definition file_two_without_id : text :=
  TDoc (VArr [VObj [("name", VPrim (PStr "Widget"))];
              entry "b" "Gadget" 20 10 2 1;
              VObj [("name", VPrim (PStr "Gizmo"))]]).


(** ** Search and edit (lines 62-68 and 135-137)

    [trim] and [toLowerCase] are methods of the host's strings (they know
    the whitespace and the case pairs of Unicode); [includes] is the search
    for a substring. *)

Record TextHost : Type := mkTextHost {
  toLowerCase : string -> string;
  trim : string -> string
}.

(** [s.includes(q)] *)
Fixpoint includes (s q : string) : bool :=
  if String.prefix q s then true
  else match s with
       | EmptyString => false
       | String _ rest => includes rest q
       end.

(** [i.name.toLowerCase()]: a [TypeError] ([None]) unless the name is a
    string, the only kind of value with such a method. *)
Definition name_lower (th : TextHost) (v : value) : option string :=
  match v with
  | VPrim (PStr s) => Some (toLowerCase th s)
  | _ => None
  end.

(** [arr.filter((i) => i.name.toLowerCase().includes(q))]: the entries are
    visited in order and the first exception ends the call. *)
Fixpoint filter_names (th : TextHost) (q : string) (arr : list Item)
  : option (list Item) :=
  match arr with
  | [] => Some []
  | i :: rest =>
      n <- name_lower th (name i) ;;
      kept <- filter_names th q rest ;;
      Some (if includes n q then i :: kept else kept)
  end.

(** The function given to [computed] (lines 64-67), run on the
    collection [arr] while the property [search] holds [search]. *)
Definition filtered (th : TextHost) (search : string) (arr : list Item)
  : option (list Item) :=
  let q := toLowerCase th (trim th search) in
  if String.eqb q "" then Some arr else filter_names th q arr.

(** [filteredItems] is a [computed] signal.  Its function runs when the
    signal is read for the first time and when [items] has been set since
    the last run; any other read gives back what the last run returned, or
    throws what it threw, whatever [search] holds by then: [search] is a
    plain property, which the signal does not track.  [cached] is the
    result of the last run ([None] inside it for a thrown [TypeError]), and
    is [None] before the first read and after each [items.set] and
    [items.update]. *)
Record View : Type := mkView {
  comp : App;
  cached : option (option (list Item))
}.

(** Reading [filteredItems()]: the result, and the component after it. *)
Definition filteredItems (th : TextHost) (search : string) (v : View)
  : option (list Item) * View :=
  match cached v with
  | Some r => (r, v)
  | None =>
      let r := filtered th search (items (comp v)) in
      (r, mkView (comp v) (Some r))
  end.

(** Whether [uploadJSON] reaches [this.items.set(data)] (line 179). *)
Definition import_sets_items (h : Host) (file : option text) (st : App)
  : bool :=
  match file with
  | Some t =>
      match JSON_parse t with
      | Some (VArr entries) =>
          match import_all h entries (tick st) with
          | (Some _, _) => true
          | (None, _) => false
          end
      | _ => false
      end
  | None => false
  end.

(** The constructor and the handlers on the component with its signal:
    [addOrUpdate] on a valid form and [remove] always set [items], the
    import sets it when it succeeds. *)
Definition view_constructor (h : Host) (saved : option text) : View :=
  mkView (constructor h saved) None.

Definition view_addOrUpdate (h : Host) (invalid : bool) (val : FormValue)
                            (v : View) : View :=
  mkView (addOrUpdate h invalid val (comp v))
         (if invalid then cached v else None).

Definition view_remove (item : Item) (v : View) : View :=
  mkView (remove item (comp v)) None.

Definition view_uploadJSON (h : Host) (file : option text) (v : View)
  : View :=
  mkView (uploadJSON h file (comp v))
         (if import_sets_items h file (comp v) then None else cached v).

(** The states of the component and its signal: those of [reachable], with
    reads of [filteredItems] in between, for any value of [search]. *)
Inductive reachable_view (h : Host) (th : TextHost) : View -> Prop :=
| view_reach_constructor (saved : option text) :
    reachable_view h th (view_constructor h saved)
| view_reach_addOrUpdate (invalid : bool) (val : FormValue) (v : View) :
    reachable_view h th v ->
    reachable_view h th (view_addOrUpdate h invalid val v)
| view_reach_remove (item : Item) (v : View) :
    reachable_view h th v -> reachable_view h th (view_remove item v)
| view_reach_uploadJSON (file : option text) (v : View) :
    reachable_view h th v -> reachable_view h th (view_uploadJSON h file v)
| view_reach_read (search : string) (v : View) :
    reachable_view h th v ->
    reachable_view h th (snd (filteredItems th search v)).

(** [edit]: [patchValue] gives each control the property of that name in
    the copy of the item, and leaves a control alone when the item has no
    such property. *)
Definition patch (v old : value) : value :=
  match v with
  | VPrim PUndefined => old
  | _ => v
  end.

Definition edit (item : Item) (form : FormValue) : FormValue :=
  mkFormValue (patch (id item) (f_id form)) (patch (name item) (f_name form))
              (PNum (price item)) (PNum (cost item))
              (PNum (amazonFees item)) (PNum (sold item)).

(** A text host for examples, exact on the letters A to Z and on the
    space. *)
Definition ascii_lower (c : ascii) : ascii :=
  let n := nat_of_ascii c in
  if ((65 <=? n) && (n <=? 90))%nat then ascii_of_nat (n + 32) else c.

Fixpoint string_lower (s : string) : string :=
  match s with
  | EmptyString => EmptyString
  | String c rest => String (ascii_lower c) (string_lower rest)
  end.

Fixpoint trim_left (s : string) : string :=
  match s with
  | String c rest => if Ascii.eqb c " "%char then trim_left rest else s
  | EmptyString => EmptyString
  end.

Definition string_rev (s : string) : string :=
  string_of_list_ascii (rev (list_ascii_of_string s)).

Definition sample_text_host : TextHost :=
  mkTextHost string_lower
             (fun s => string_rev (trim_left (string_rev (trim_left s)))).

(** ** Further reference definitions *)

(** An item that a reload carries unharmed: as [survives_json], but the id
    need not be truthy and can be absent (the constructor generates none). *)
Definition survives_reload (it : Item) : Prop :=
  elements it = None
  /\ (id it = undefined \/ json_of (id it) = id it)
  /\ (name it = undefined \/ json_of (name it) = name it)
  /\ is_finite (price it) = true
  /\ is_finite (cost it) = true
  /\ is_finite (amazonFees it) = true
  /\ is_finite (sold it) = true.

(** The ledger and the storage slot agree: the slot holds the serialised
    ledger, or the ledger is what the constructor reads in the slot. *)
Definition in_step (h : Host) (st : App) : Prop :=
  storage st = Some (JSON_stringify (items st))
  \/ items st = items (constructor h (storage st)).

(** The rest of a CSV line after a cell: nothing, or a comma and the line
    of the cells that follow. *)
Definition csv_rest (cells : list string) : string :=
  match cells with
  | [] => ""
  | _ :: _ => "," ++ csv_line cells
  end.

(** Reading a cell back after its opening double quote: the content, with
    each pair of double quotes read as one, and what follows the closing
    double quote. *)
Fixpoint read_cell (s : string) : string * string :=
  match s with
  | EmptyString => (EmptyString, EmptyString)
  | String c rest =>
      if Ascii.eqb c dquote then
        match rest with
        | String c' rest' =>
            if Ascii.eqb c' dquote
            then let (content, after) := read_cell rest' in
                 (String dquote content, after)
            else (EmptyString, rest)
        | EmptyString => (EmptyString, EmptyString)
        end
      else let (content, after) := read_cell rest in
           (String c content, after)
  end.

(** * Properties *)

(** ** Sanitised numbers *)

Lemma or0_cases (x : float) :
  (num_truthy x = true /\ or0 x = x) \/ (num_truthy x = false /\ or0 x = zero).
Proof.
  unfold or0. destruct (num_truthy x); [left | right]; split; reflexivity.
Qed.

Lemma num_truthy_true (x : float) :
  num_truthy x = true -> is_zero x = false /\ is_nan x = false.
Proof.
  unfold num_truthy. intro H. apply negb_true_iff in H.
  apply orb_false_iff in H. exact H.
Qed.

Lemma clean_zero : clean zero.
Proof. split; reflexivity. Qed.

Lemma or0_clean (x : float) : clean (or0 x).
Proof.
  destruct (or0_cases x) as [[T E] | [T E]]; rewrite E.
  - destruct (num_truthy_true x T) as [Z N]. split; [exact N |].
    rewrite Z. discriminate.
  - exact clean_zero.
Qed.

Lemma or0_id (x : float) : clean x -> or0 x = x.
Proof.
  intros [N Z]. destruct (or0_cases x) as [[_ E] | [T E]]; [exact E |].
  rewrite E. symmetry. apply Z.
  unfold num_truthy in T. rewrite N, orb_false_r in T.
  apply negb_false_iff in T. exact T.
Qed.

Lemma or0_nan (x : float) : is_nan x = true -> or0 x = zero.
Proof.
  intro N. unfold or0, num_truthy. rewrite N, orb_true_r. reflexivity.
Qed.

Lemma or0_zero (x : float) : is_zero x = true -> or0 x = zero.
Proof.
  intro Z. unfold or0, num_truthy. rewrite Z. reflexivity.
Qed.

Lemma coerce_clean (h : Host) (v : value) (x : float) :
  coerce h v = Some x -> clean x.
Proof.
  unfold coerce. destruct (Number h v) as [y |]; simpl; [| discriminate].
  intro E. injection E as <-. apply or0_clean.
Qed.

Ltac bind_inv H :=
  repeat match type of H with
         | match ?a with Some _ => _ | None => None end = Some _ =>
             let E := fresh "E" in destruct a eqn:E; [| discriminate H]
         end.

Lemma sanitize_ok (h : Host) (p : value) (it : Item) :
  sanitize h p = Some it -> item_ok it.
Proof.
  unfold sanitize. intro H. bind_inv H. injection H as <-.
  unfold item_ok; simpl. repeat split; eapply coerce_clean; eassumption.
Qed.

Lemma normalize_ok (h : Host) (val : FormValue) (i : value) :
  item_ok (normalize h val i).
Proof. unfold item_ok; simpl. auto using or0_clean. Qed.

Lemma set_id_ok (it : Item) (v : value) : item_ok it -> item_ok (set_id it v).
Proof. exact (fun H => H). Qed.

Lemma sanitize_wf (h : Host) (p : value) (it : Item) :
  sanitize h p = Some it -> item_wf it.
Proof.
  unfold sanitize. intro H. bind_inv H. injection H as <-.
  unfold item_wf, other_props; simpl. apply Forall_forall.
  intros kv I. apply filter_In in I. destruct I as [_ I].
  apply negb_true_iff in I. exact I.
Qed.

Lemma normalize_wf (h : Host) (val : FormValue) (i : value) :
  item_wf (normalize h val i).
Proof. constructor. Qed.

Lemma set_id_wf (it : Item) (v : value) : item_wf it -> item_wf (set_id it v).
Proof. exact (fun H => H). Qed.

(** A property of items that the three ways of making an item establish or
    keep holds of every item of every reachable state. *)
Section Invariant.
Variable P : Item -> Prop.
Hypothesis P_sanitize :
  forall (h : Host) (p : value) (it : Item), sanitize h p = Some it -> P it.
Hypothesis P_normalize :
  forall (h : Host) (val : FormValue) (i : value), P (normalize h val i).
Hypothesis P_set_id :
  forall (it : Item) (v : value), P it -> P (set_id it v).

Lemma sanitize_all_inv (h : Host) (entries : list value) :
  forall arr, sanitize_all h entries = Some arr -> Forall P arr.
Proof.
  induction entries as [| p rest IH]; simpl; intros arr H.
  - injection H as <-. constructor.
  - bind_inv H. injection H as <-.
    constructor; eauto.
Qed.

Lemma import_entry_inv (h : Host) (p : value) (k k' : nat) (it : Item) :
  import_entry h p k = (Some it, k') -> P it.
Proof.
  unfold import_entry. destruct (sanitize h p) as [it0 |] eqn:E;
    [| discriminate].
  apply P_sanitize in E.
  destruct (truthy (id it0)); intro H; injection H as <- _; auto.
Qed.

Lemma import_all_inv (h : Host) (entries : list value) :
  forall k k' arr,
    import_all h entries k = (Some arr, k') -> Forall P arr.
Proof.
  induction entries as [| p rest IH]; simpl; intros k k' arr H.
  - injection H as <- _. constructor.
  - destruct (import_entry h p k) as [[it |] k1] eqn:E1; [| discriminate].
    destruct (import_all h rest k1) as [[arr1 |] k2] eqn:E2; [| discriminate].
    injection H as <- _.
    constructor; eauto using import_entry_inv.
Qed.

Lemma constructor_inv (h : Host) (saved : option text) :
  Forall P (items (constructor h saved)).
Proof.
  unfold constructor, load_items.
  destruct saved as [[| | v] |]; simpl; try constructor.
  destruct v as [p | entries | props]; simpl; try constructor.
  destruct (sanitize_all h entries) as [arr |] eqn:E; simpl;
    [eauto using sanitize_all_inv | constructor].
Qed.

Lemma addOrUpdate_inv (h : Host) (invalid : bool) (val : FormValue) (st : App) :
  Forall P (items st) ->
  Forall P (items (addOrUpdate h invalid val st)).
Proof.
  intro H. unfold addOrUpdate.
  destruct invalid; [exact H |].
  destruct (truthy (f_id val)); simpl.
  - apply Forall_forall. intros x Hx. apply in_map_iff in Hx.
    destruct Hx as [i [<- Hi]].
    destruct (strict_eq (id i) (f_id val)); [apply P_normalize |].
    revert i Hi. apply Forall_forall. exact H.
  - apply Forall_app. split; [exact H |].
    constructor; [apply P_normalize | constructor].
Qed.

Lemma remove_inv (item : Item) (st : App) :
  Forall P (items st) -> Forall P (items (remove item st)).
Proof.
  intro H. simpl. apply Forall_forall. intros x Hx.
  apply filter_In in Hx. destruct Hx as [Hx _].
  revert x Hx. apply Forall_forall. exact H.
Qed.

Lemma uploadJSON_inv (h : Host) (file : option text) (st : App) :
  Forall P (items st) ->
  Forall P (items (uploadJSON h file st)).
Proof.
  intro H. unfold uploadJSON.
  destruct file as [[| | v] |]; simpl; try exact H.
  destruct v as [p | entries | props]; simpl; try exact H.
  destruct (import_all h entries (tick st)) as [[arr |] k] eqn:E; simpl;
    [eauto using import_all_inv | exact H].
Qed.

Lemma reachable_inv (h : Host) (st : App) :
  reachable h st -> Forall P (items st).
Proof.
  induction 1;
    auto using constructor_inv, addOrUpdate_inv, remove_inv, uploadJSON_inv.
Qed.

End Invariant.

Lemma import_all_ok (h : Host) (entries : list value) :
  forall k k' arr,
    import_all h entries k = (Some arr, k') -> Forall item_ok arr.
Proof.
  exact (import_all_inv item_ok sanitize_ok set_id_ok h entries).
Qed.

Lemma reachable_ok (h : Host) (st : App) :
  reachable h st -> Forall item_ok (items st).
Proof.
  exact (reachable_inv item_ok sanitize_ok normalize_ok set_id_ok h st).
Qed.

Lemma reachable_wf (h : Host) (st : App) :
  reachable h st -> Forall item_wf (items st).
Proof.
  exact (reachable_inv item_wf sanitize_wf normalize_wf set_id_wf h st).
Qed.

Ltac clean_literal :=
  split;
  [reflexivity
  | let H := fresh "H" in intro H; vm_compute in H; discriminate H].

Ltac item_literal :=
  unfold item_ok; simpl;
  split; [clean_literal | split; [clean_literal | split; clean_literal]].

Lemma scenario6_ok : Forall item_ok scenario6.
Proof.
  unfold scenario6.
  constructor; [item_literal | constructor; [item_literal | constructor]].
Qed.

(** ** Aggregation *)

Lemma fold_left_guard (f g : Item -> float) (arr : list Item) :
  Forall (fun it => f it = g it) arr ->
  forall s,
    fold_left (fun s it => (s + f it)%float) arr s =
    fold_left (fun s it => (s + g it)%float) arr s.
Proof.
  induction 1 as [| it arr E _ IH]; simpl; intro s; [reflexivity |].
  rewrite E. apply IH.
Qed.

Lemma perItemProfit_ok (it : Item) :
  item_ok it ->
  perItemProfit it = ((price it - cost it - amazonFees it) * sold it)%float.
Proof.
  intros (P & C & F & S). unfold perItemProfit.
  rewrite !or0_id by assumption. reflexivity.
Qed.

Lemma totals_ok (arr : list Item) :
  Forall item_ok arr ->
  totalSold arr = Sigma sold arr
  /\ totalRevenue arr = Sigma (fun it => (price it * sold it)%float) arr
  /\ totalCost arr = Sigma (fun it => (cost it * sold it)%float) arr
  /\ totalFees arr = Sigma (fun it => (amazonFees it * sold it)%float) arr
  /\ totalProfit arr =
     (Sigma (fun it => (price it * sold it)%float) arr
      - Sigma (fun it => (cost it * sold it)%float) arr
      - Sigma (fun it => (amazonFees it * sold it)%float) arr)%float.
Proof.
  intro H.
  assert (S : totalSold arr = Sigma sold arr).
  { apply fold_left_guard. eapply Forall_impl; [| exact H].
    intros it (_ & _ & _ & S). apply or0_id, S. }
  assert (R : totalRevenue arr = Sigma (fun it => (price it * sold it)%float) arr).
  { apply (fold_left_guard (fun it => (or0 (price it) * or0 (sold it))%float)).
    eapply Forall_impl; [| exact H].
    intros it (P & _ & _ & S'). simpl. rewrite !or0_id by assumption.
    reflexivity. }
  assert (C : totalCost arr = Sigma (fun it => (cost it * sold it)%float) arr).
  { apply (fold_left_guard (fun it => (or0 (cost it) * or0 (sold it))%float)).
    eapply Forall_impl; [| exact H].
    intros it (_ & C & _ & S'). simpl. rewrite !or0_id by assumption.
    reflexivity. }
  assert (F : totalFees arr
              = Sigma (fun it => (amazonFees it * sold it)%float) arr).
  { apply (fold_left_guard
             (fun it => (or0 (amazonFees it) * or0 (sold it))%float)).
    eapply Forall_impl; [| exact H].
    intros it (_ & _ & F & S'). simpl. rewrite !or0_id by assumption.
    reflexivity. }
  repeat split; try assumption.
  unfold totalProfit. rewrite R, C, F. reflexivity.
Qed.

(** C1. The five totals are the reference sums: on every collection whose
    numeric fields are sanitised numbers, hence on every collection the
    component ever holds, [totalSold] is the sum of [sold], [totalRevenue]
    of [price * sold], [totalCost] of [cost * sold], [totalFees] of
    [amazonFees * sold], and [totalProfit] is revenue minus cost minus fees;
    on the empty collection all five are [0]; on the two items of the sixth
    testable property they are 4, 50, 22, 5 and 23. *)
Theorem C1_totals_are_reference_sums :
  (forall arr : list Item,
      Forall item_ok arr ->
      totalSold arr = Sigma sold arr
      /\ totalRevenue arr = Sigma (fun it => (price it * sold it)%float) arr
      /\ totalCost arr = Sigma (fun it => (cost it * sold it)%float) arr
      /\ totalFees arr = Sigma (fun it => (amazonFees it * sold it)%float) arr
      /\ totalProfit arr =
         (Sigma (fun it => (price it * sold it)%float) arr
          - Sigma (fun it => (cost it * sold it)%float) arr
          - Sigma (fun it => (amazonFees it * sold it)%float) arr)%float)
  /\ (forall (h : Host) (st : App),
         reachable h st ->
         totalSold (items st) = Sigma sold (items st)
         /\ totalRevenue (items st)
            = Sigma (fun it => (price it * sold it)%float) (items st)
         /\ totalCost (items st)
            = Sigma (fun it => (cost it * sold it)%float) (items st)
         /\ totalFees (items st)
            = Sigma (fun it => (amazonFees it * sold it)%float) (items st)
         /\ totalProfit (items st)
            = (totalRevenue (items st) - totalCost (items st)
               - totalFees (items st))%float)
  /\ (totalSold [] = zero /\ totalRevenue [] = zero /\ totalCost [] = zero
      /\ totalFees [] = zero /\ totalProfit [] = zero)
  /\ (totalSold scenario6 = 4%float /\ totalRevenue scenario6 = 50%float
      /\ totalCost scenario6 = 22%float /\ totalFees scenario6 = 5%float
      /\ totalProfit scenario6 = 23%float).
Proof.
  split; [exact totals_ok |].
  split.
  - intros h st R. apply reachable_ok in R.
    destruct (totals_ok _ R) as (S & Rv & C & F & _).
    repeat split; assumption.
  - split; repeat split; reflexivity.
Qed.

Lemma C1_totals_witness :
  Forall item_ok scenario6
  /\ totalSold scenario6 = Sigma sold scenario6
  /\ Sigma sold scenario6 = 4%float.
Proof.
  split; [exact scenario6_ok |].
  split; [| reflexivity].
  exact (proj1 (proj1 C1_totals_are_reference_sums scenario6 scenario6_ok)).
Defined.

(** C2. For every item with sanitised numeric fields, hence for every item
    of every collection the component holds, [perItemProfit] is
    [(price - cost - amazonFees) * sold]. *)
Theorem C2_perItemProfit_formula :
  (forall it : Item,
      item_ok it ->
      perItemProfit it
      = ((price it - cost it - amazonFees it) * sold it)%float)
  /\ (forall (h : Host) (st : App) (it : Item),
         reachable h st -> In it (items st) ->
         perItemProfit it
         = ((price it - cost it - amazonFees it) * sold it)%float).
Proof.
  split; [exact perItemProfit_ok |].
  intros h st it R I. apply perItemProfit_ok.
  apply reachable_ok in R. rewrite Forall_forall in R. auto.
Qed.

Lemma C2_perItemProfit_witness :
  item_ok (mkItem undefined undefined 10 4 1 3 [] None)
  /\ perItemProfit (mkItem undefined undefined 10 4 1 3 [] None) = 15%float.
Proof.
  split; [item_literal |].
  rewrite (proj1 C2_perItemProfit_formula); [reflexivity | item_literal].
Defined.

(** ** Sanitisation (C3) *)

Lemma coerce_non_numeric (h : Host) (v : value) (y : float) :
  Number h v = Some y -> is_nan y = true -> coerce h v = Some zero.
Proof.
  intros E N. unfold coerce. rewrite E. simpl. rewrite (or0_nan y N).
  reflexivity.
Qed.

Lemma coerce_zero (h : Host) (v : value) (y : float) :
  Number h v = Some y -> is_zero y = true -> coerce h v = Some zero.
Proof.
  intros E Z. unfold coerce. rewrite E. simpl. rewrite (or0_zero y Z).
  reflexivity.
Qed.

(** C3, the claim fails: importing a file whose entry has the cost 1e999
    and the price -5 stores an infinite cost (and a negative price); so
    does loading the same text from the storage slot. *)
Lemma C3_counterexample :
  map (fun it => (price it, cost it))
      (items (uploadJSON sample_host (Some file_negative) first_start))
  = [((-5)%float, infinity)]
  /\ map (fun it => (price it, cost it))
         (items (constructor sample_host (Some file_negative)))
     = [((-5)%float, infinity)]
  /\ ((-5) <? 0)%float = true
  /\ is_finite infinity = false.
Proof. repeat split; reflexivity. Qed.

(** C3, amended.  After every operation (load, add/update, remove, import)
    each of [price], [cost], [amazonFees] and [sold] of every item of the
    ledger is a number that is not [NaN] (nor the negative zero): every
    value a sanitising assignment stores is such a number, and a missing
    input, an input whose conversion to a number is [NaN] (a non-numeric
    one) and an input that converts to zero are stored as [0].  The
    sanitisers do not ask for a finite number: an infinite input is stored
    as it is. *)
Theorem C3_fields_are_sanitised_numbers :
  (forall (h : Host) (st : App),
      reachable h st -> Forall item_ok (items st))
  /\ (forall (h : Host) (v : value) (x : float),
         coerce h v = Some x -> clean x)
  /\ (forall (h : Host) (val : FormValue) (i : value),
         item_ok (normalize h val i))
  /\ (forall h : Host, coerce h undefined = Some zero)
  /\ (forall (h : Host) (v : value) (y : float),
         Number h v = Some y -> is_nan y = true -> coerce h v = Some zero)
  /\ (forall (h : Host) (v : value) (y : float),
         Number h v = Some y -> is_zero y = true -> coerce h v = Some zero)
  /\ (forall h : Host, coerce h (VPrim (PNum infinity)) = Some infinity).
Proof.
  split; [exact reachable_ok |].
  split; [exact coerce_clean |].
  split; [exact normalize_ok |].
  split; [reflexivity |].
  split; [exact coerce_non_numeric |].
  split; [exact coerce_zero | reflexivity].
Qed.

Lemma C3_fields_witness :
  reachable sample_host
            (uploadJSON sample_host (Some file_negative) first_start)
  /\ Forall item_ok
            (items (uploadJSON sample_host (Some file_negative) first_start)).
Proof.
  assert (R : reachable sample_host
                (uploadJSON sample_host (Some file_negative) first_start)).
  { apply reach_uploadJSON. apply reach_constructor. }
  split; [exact R |].
  exact (proj1 C3_fields_are_sanitised_numbers sample_host _ R).
Defined.

(** ** Strict equality and identity *)

Lemma float_eqb_eq (x y : float) :
  (x =? y)%float = true -> is_zero y = false -> x = y.
Proof.
  unfold is_zero. rewrite !FloatAxioms.eqb_spec.
  change (Prim2SF zero) with (S754_zero false).
  intros E Z.
  rewrite <- (SF2Prim_Prim2SF x), <- (SF2Prim_Prim2SF y). f_equal.
  destruct (Prim2SF x) as [s1 | s1 | | s1 m1 e1],
           (Prim2SF y) as [s2 | s2 | | s2 m2 e2];
    unfold SFeqb in *; simpl in *; try discriminate.
  all: destruct s1, s2; try discriminate; try reflexivity.
  all: destruct (Z.compare e1 e2) eqn:Ce; try discriminate;
    apply Z.compare_eq in Ce; subst e2;
    destruct (Pos.compare_cont Eq m1 m2) eqn:Cm; try discriminate;
    apply Pos.compare_eq in Cm; subst m2; reflexivity.
Qed.

Lemma prim_eqb_eq (p q : prim) : prim_eqb p q = true -> p = q.
Proof.
  destruct p as [| | b | x | s], q as [| | c | y | t]; simpl;
    try discriminate; try reflexivity; intro H.
  - apply Bool.eqb_prop in H. congruence.
  - apply FloatAxioms.Leibniz.eqb_spec in H. congruence.
  - apply String.eqb_eq in H. congruence.
Qed.

Lemma value_eqb_eq : forall a b : value, value_eqb a b = true -> a = b.
Proof.
  fix IH 1.
  intros [p | l | ps] [q | m | qs]; simpl; try discriminate.
  - intro H. f_equal. apply prim_eqb_eq. exact H.
  - intro H. f_equal. revert m H.
    induction l as [| x l IHl]; intros [| y m] H; try discriminate;
      [reflexivity |].
    apply andb_true_iff in H. destruct H as [H1 H2].
    f_equal; [apply IH; exact H1 | apply IHl; exact H2].
  - intro H. f_equal. revert qs H.
    induction ps as [| [k x] ps IHps]; intros [| [k' y] qs] H;
      try discriminate; [reflexivity |].
    apply andb_true_iff in H. destruct H as [H12 H3].
    apply andb_true_iff in H12. destruct H12 as [H1 H2].
    apply String.eqb_eq in H1. subst k'.
    f_equal; [f_equal; apply IH; exact H2 | apply IHps; exact H3].
Qed.

(** A truthy value is [===] to itself only: for a truthy [b], [a === b]
    makes [a] and [b] the same value (the two zeros, which are [===] and
    differ, are falsy). *)
Lemma strict_eq_truthy (a b : value) :
  strict_eq a b = true -> truthy b = true -> a = b.
Proof.
  destruct a as [p | l | ps], b as [q | m | qs]; try discriminate.
  - destruct p as [| | x | x | s], q as [| | y | y | t]; simpl;
      try discriminate; intros E T.
    + apply Bool.eqb_prop in E. congruence.
    + apply num_truthy_true in T. destruct T as [Z _].
      rewrite (float_eqb_eq x y E Z). reflexivity.
    + apply String.eqb_eq in E. congruence.
  - intros E _. apply value_eqb_eq. exact E.
  - intros E _. apply value_eqb_eq. exact E.
Qed.

(** ** Removal (C10) *)

Lemma filter_kept (v : value) (arr : list Item) :
  kept_entries v arr (filter (fun i => negb (strict_eq (id i) v)) arr).
Proof.
  induction arr as [| i arr IH]; simpl; [constructor |].
  destruct (strict_eq (id i) v) eqn:E; simpl.
  - apply kept_drop; assumption.
  - apply kept_keep; assumption.
Qed.

Lemma kept_entries_In (v : value) (arr arr' : list Item) :
  kept_entries v arr arr' ->
  forall i, In i arr' <-> In i arr /\ strict_eq (id i) v = false.
Proof.
  induction 1 as [| j arr arr' E _ IH | j arr arr' E _ IH]; intro i; simpl.
  - tauto.
  - rewrite IH. split.
    + intros [-> | [H1 H2]]; auto.
    + intros [[-> | H1] H2]; auto.
  - rewrite IH. split.
    + intros [H1 H2]; auto.
    + intros [[-> | H1] H2]; [congruence | auto].
Qed.

Lemma kept_entries_all (v : value) (arr : list Item) :
  (forall i, In i arr -> strict_eq (id i) v = false) ->
  forall arr', kept_entries v arr arr' -> arr' = arr.
Proof.
  intros H arr' K. induction K as [| j arr arr' E _ IH | j arr arr' E _ IH].
  - reflexivity.
  - f_equal. apply IH. intros i Hi. apply H. right. exact Hi.
  - rewrite (H j) in E by (left; reflexivity). discriminate.
Qed.

Lemma kept_entries_unique (v : value) (arr arr1 : list Item) :
  kept_entries v arr arr1 ->
  forall arr2, kept_entries v arr arr2 -> arr1 = arr2.
Proof.
  induction 1 as [| j arr arr' E _ IH | j arr arr' E _ IH];
    intros arr2 K; inversion K; subst; try congruence.
  - f_equal. auto.
  - auto.
Qed.

(** C10. [remove] leaves exactly the entries whose id differs ([!==])
    from the id of the given item, each as it was and in the original
    relative order: all the entries that share the id go, however many,
    and when no entry has that id the collection is unchanged.  The ids are
    compared as values: the given id is a primitive (a string, as the
    interface declares), or the ids of the collection are. *)
Theorem C10_remove_keeps_the_others :
  forall (item : Item) (st : App),
    by_value (id item) (items st) ->
    kept_entries (id item) (items st) (items (remove item st))
    /\ (forall i : Item,
           In i (items (remove item st))
           <-> In i (items st) /\ strict_eq (id i) (id item) = false)
    /\ Forall (fun i => strict_eq (id i) (id item) = false)
              (items (remove item st))
    /\ ((forall i : Item,
            In i (items st) -> strict_eq (id i) (id item) = false) ->
        items (remove item st) = items st)
    /\ (forall arr' : list Item,
           kept_entries (id item) (items st) arr' ->
           arr' = items (remove item st)).
Proof.
  intros item st _.
  pose proof (filter_kept (id item) (items st)) as K.
  change (filter (fun i => negb (strict_eq (id i) (id item))) (items st))
    with (items (remove item st)) in K.
  split; [exact K |].
  split; [apply kept_entries_In; exact K |].
  split.
  { apply Forall_forall. intros i Hi.
    apply (kept_entries_In _ _ _ K) in Hi. tauto. }
  split.
  { intro H. eapply kept_entries_all; eassumption. }
  intros arr' K'. eapply kept_entries_unique; eassumption.
Qed.

Lemma C10_remove_witness :
  by_value (id (mkItem (VPrim (PStr "a")) undefined 0 0 0 0 [] None))
           (items two_items)
  /\ map id (items two_items) = [VPrim (PStr "a"); VPrim (PStr "a")]
  /\ kept_entries (VPrim (PStr "a")) (items two_items) []
  /\ map id (items (remove (mkItem (VPrim (PStr "a")) undefined 0 0 0 0
                                   [] None) ledger_ab))
     = [VPrim (PStr "b")].
Proof.
  assert (B : by_value (id (mkItem (VPrim (PStr "a")) undefined 0 0 0 0
                                   [] None)) (items two_items)).
  { left. reflexivity. }
  split; [exact B |]. split; [reflexivity |]. split; [| reflexivity].
  exact (proj1 (C10_remove_keeps_the_others
                  (mkItem (VPrim (PStr "a")) undefined 0 0 0 0 [] None)
                  two_items B)).
Defined.

(** ** Update of an unknown id (C5) *)

Lemma map_unchanged (f : Item -> Item) (arr : list Item) :
  (forall i, In i arr -> f i = i) -> map f arr = arr.
Proof.
  intro H. rewrite <- (map_id arr) at 2. apply map_ext_in. exact H.
Qed.

(** C5. An update (a valid form whose id is non-empty, more generally
    truthy) whose id is [===] to the id of no entry leaves the collection
    as it was, element for element, and shows no message. *)
Theorem C5_update_unknown_id_is_noop :
  forall (h : Host) (val : FormValue) (st : App),
    truthy (f_id val) = true ->
    (forall i : Item, In i (items st) -> strict_eq (id i) (f_id val) = false) ->
    items (addOrUpdate h false val st) = items st
    /\ alerts (addOrUpdate h false val st) = alerts st.
Proof.
  intros h val st T H. unfold addOrUpdate. rewrite T. simpl.
  split; [| reflexivity].
  apply map_unchanged. intros i Hi. rewrite (H i Hi). reflexivity.
Qed.

Lemma C5_update_witness :
  truthy (f_id form_b) = true
  /\ (forall i : Item,
         In i (items one_item) -> strict_eq (id i) (f_id form_b) = false)
  /\ items (addOrUpdate sample_host false form_b one_item) = items one_item
  /\ map id (items one_item) = [VPrim (PStr "a")].
Proof.
  assert (T : truthy (f_id form_b) = true) by reflexivity.
  assert (H : forall i : Item,
             In i (items one_item) -> strict_eq (id i) (f_id form_b) = false).
  { intros i [<- | []]. reflexivity. }
  split; [exact T |]. split; [exact H |].
  split; [| reflexivity].
  exact (proj1 (C5_update_unknown_id_is_noop sample_host form_b one_item T H)).
Defined.

(** ** Order and identifiers (C9) *)

Lemma append_not_empty (s t : string) : s <> "" -> s ++ t <> "".
Proof. destruct s; simpl; [congruence | discriminate]. Qed.

Lemma append_not_empty_r (s t : string) : t <> "" -> s ++ t <> "".
Proof. destruct s; simpl; [auto | discriminate]. Qed.

Lemma to36_not_empty (fuel : nat) (n : N) : to36 fuel n <> "".
Proof.
  destruct fuel as [| fuel]; simpl; [discriminate |].
  destruct (n <? 36)%N; [discriminate |].
  apply append_not_empty_r. discriminate.
Qed.

Lemma toString36_not_empty (z : Z) : toString36 z <> "".
Proof.
  unfold toString36. destruct (z <? 0)%Z.
  - discriminate.
  - apply to36_not_empty.
Qed.

Lemma digit_value_digit36 (n : N) : (n < 36)%N -> digit_value (digit36 n) = n.
Proof.
  intro H.
  assert (A : forallb (fun k => N.eqb (digit_value (digit36 (N.of_nat k)))
                                      (N.of_nat k)) (seq 0 36) = true)
    by reflexivity.
  rewrite forallb_forall in A.
  specialize (A (N.to_nat n)). rewrite N2Nat.id in A.
  apply N.eqb_eq, A, in_seq. lia.
Qed.

Lemma decode36_snoc (s : string) (c : ascii) :
  forall acc,
    decode36 (s ++ String c "") acc = (decode36 s acc * 36 + digit_value c)%N.
Proof.
  induction s as [| d s IH]; simpl; intro acc; [reflexivity | apply IH].
Qed.

Lemma to36_decode (fuel : nat) :
  forall n : N, (n < 2 ^ N.of_nat (S fuel))%N -> decode36 (to36 fuel n) 0 = n.
Proof.
  induction fuel as [| fuel IH]; intros n H.
  - simpl. change (2 ^ N.of_nat 1)%N with 2%N in H.
    apply digit_value_digit36. lia.
  - cbn [to36]. destruct (N.ltb_spec n 36) as [L | G].
    + simpl. apply digit_value_digit36. exact L.
    + rewrite decode36_snoc, IH.
      * rewrite digit_value_digit36 by (apply N.mod_lt; lia).
        rewrite N.mul_comm. symmetry. apply N.div_mod. lia.
      * replace (N.of_nat (S (S fuel))) with (N.succ (N.of_nat (S fuel)))
          in H by lia.
        rewrite N.pow_succ_r' in H.
        apply N.Div0.div_lt_upper_bound. lia.
Qed.

(** The fuel of [toString36] is enough: the digits it writes for a time
    stamp read back as that time stamp. *)
Lemma toString36_decode (z : Z) :
  (0 <= z)%Z -> decode36 (toString36 z) 0 = Z.to_N z.
Proof.
  intro H. unfold toString36.
  destruct (Z.ltb_spec z 0) as [L | _]; [lia |].
  replace (Z.abs_N z) with (Z.to_N z)
    by (destruct z; simpl; try reflexivity; lia).
  apply to36_decode.
  destruct (N.eq_dec (Z.to_N z) 0) as [E | NZ].
  - rewrite E. reflexivity.
  - rewrite Nat2N.inj_succ, N2Nat.id. apply N.log2_spec. lia.
Qed.

(** A generated identifier is a non-empty string, hence truthy. *)
Lemma new_id_truthy (h : Host) (k : nat) :
  new_id h k <> "" /\ truthy (VPrim (PStr (new_id h k))) = true.
Proof.
  assert (N : new_id h k <> "").
  { unfold new_id. apply append_not_empty, toString36_not_empty. }
  split; [exact N |].
  simpl. destruct (String.eqb_spec (new_id h k) ""); [contradiction | reflexivity].
Qed.

Lemma update_keeps_ids (h : Host) (val : FormValue) (st : App) :
  truthy (f_id val) = true ->
  map id (items (addOrUpdate h false val st)) = map id (items st).
Proof.
  intro T. unfold addOrUpdate. rewrite T. simpl.
  rewrite map_map. apply map_ext. intro i.
  destruct (strict_eq (id i) (f_id val)) eqn:E; [| reflexivity].
  simpl. symmetry. apply strict_eq_truthy; assumption.
Qed.

Lemma add_appends (h : Host) (val : FormValue) (st : App) :
  truthy (f_id val) = false ->
  items (addOrUpdate h false val st)
  = (items st ++ [normalize h val (VPrim (PStr (new_id h (tick st))))])%list.
Proof.
  intro T. unfold addOrUpdate. rewrite T. reflexivity.
Qed.

Lemma distinct_filter (p : Item -> bool) (arr : list Item) :
  distinct_ids arr -> distinct_ids (filter p arr).
Proof.
  unfold distinct_ids. induction arr as [| a arr IH]; simpl; intro H;
    [exact H |].
  inversion H as [| x l Nin ND]; subst.
  destruct (p a); simpl; [| auto].
  constructor; [| auto].
  intro I. apply Nin. apply in_map_iff in I. destruct I as [i [E I]].
  apply filter_In in I. apply in_map_iff. exists i. tauto.
Qed.

Lemma distinct_snoc (arr : list Item) (it : Item) :
  distinct_ids arr -> ~ In (id it) (map id arr) ->
  distinct_ids (arr ++ [it])%list.
Proof.
  unfold distinct_ids. intros ND Nin. rewrite map_app. simpl.
  induction (map id arr) as [| a l IH]; simpl.
  - constructor; [intros [] | constructor].
  - inversion ND as [| x l' Na NDl]; subst.
    constructor.
    + rewrite in_app_iff. simpl. intros [I | [E | []]]; [auto |].
      apply Nin. left. symmetry. exact E.
    + apply IH; [exact NDl |]. intro I. apply Nin. right. exact I.
Qed.

Lemma import_entry_spec (h : Host) (p : value) (k k' : nat) (it : Item) :
  import_entry h p k = (Some it, k') -> imported h p it.
Proof.
  unfold import_entry, imported.
  destruct (sanitize h p) as [it0 |]; [| discriminate].
  destruct (truthy (id it0)) eqn:T; intro H; injection H as <- _;
    exists it0; split; auto.
  right. split; [exact T |]. exists k. reflexivity.
Qed.

Lemma import_all_spec (h : Host) (entries : list value) :
  forall k k' arr,
    import_all h entries k = (Some arr, k') ->
    Forall2 (imported h) entries arr.
Proof.
  induction entries as [| p rest IH]; simpl; intros k k' arr H.
  - injection H as <- _. constructor.
  - destruct (import_entry h p k) as [[it |] k1] eqn:E1; [| discriminate].
    destruct (import_all h rest k1) as [[arr1 |] k2] eqn:E2; [| discriminate].
    injection H as <- _.
    constructor; eauto using import_entry_spec.
Qed.

Lemma sanitize_all_spec (h : Host) (entries : list value) :
  forall arr,
    sanitize_all h entries = Some arr ->
    Forall2 (fun p it => sanitize h p = Some it) entries arr.
Proof.
  induction entries as [| p rest IH]; simpl; intros arr H.
  - injection H as <-. constructor.
  - bind_inv H. injection H as <-. constructor; auto.
Qed.

Lemma uploadJSON_array (h : Host) (entries : list value) (st : App) :
  forall arr k,
    import_all h entries (tick st) = (Some arr, k) ->
    uploadJSON h (Some (TDoc (VArr entries))) st
    = saveLocal (set_items (console_log "Uploading items" (set_tick st k)) arr).
Proof.
  intros arr k E. unfold uploadJSON. simpl. rewrite E. reflexivity.
Qed.

Lemma sanitize_sanitised (h : Host) (p : value) (it : Item) :
  sanitize h p = Some it -> sanitised h p it.
Proof.
  unfold sanitize, sanitised. intro H.
  destruct (own_props p) as [[props els] |] eqn:O; [| discriminate H].
  cbn [fst snd] in H. bind_inv H. injection H as <-.
  exists props, els. simpl. repeat split; assumption.
Qed.

Lemma sanitised_unique (h : Host) (p : value) (it1 it2 : Item) :
  sanitised h p it1 -> sanitised h p it2 -> it1 = it2.
Proof.
  intros (ps1 & e1 & O1 & P1 & C1 & F1 & S1 & I1 & N1 & R1 & L1)
         (ps2 & e2 & O2 & P2 & C2 & F2 & S2 & I2 & N2 & R2 & L2).
  rewrite O1 in O2. injection O2 as <- <-.
  destruct it1, it2; simpl in *. congruence.
Qed.

Lemma import_all_imports (h : Host) (entries : list value) :
  forall k k' arr,
    import_all h entries k = (Some arr, k') -> imports h k entries arr k'.
Proof.
  induction entries as [| p rest IH]; simpl; intros k k' arr H.
  - injection H as <- <-. constructor.
  - unfold import_entry in H.
    destruct (sanitize h p) as [it0 |] eqn:E; [| discriminate H].
    apply sanitize_sanitised in E.
    destruct (truthy (id it0)) eqn:T.
    + destruct (import_all h rest k) as [[arr1 |] k2] eqn:E2;
        [| discriminate H].
      injection H as <- <-. apply imports_kept; auto.
    + destruct (import_all h rest (S k)) as [[arr1 |] k2] eqn:E2;
        [| discriminate H].
      injection H as <- <-. apply imports_drawn; auto.
Qed.

Lemma imports_unique (h : Host) (k : nat) (entries : list value)
      (arr1 : list Item) (k1 : nat) :
  imports h k entries arr1 k1 ->
  forall arr2 k2, imports h k entries arr2 k2 -> arr1 = arr2 /\ k1 = k2.
Proof.
  induction 1 as [k | k k' p it rest arr Hs Ht _ IH
                  | k k' p it rest arr Hs Ht _ IH];
    intros arr2 k2 I2;
    inversion I2 as [| ? ? ? it2 ? arr2' Hs2 Ht2 I2'
                     | ? ? ? it2 ? arr2' Hs2 Ht2 I2']; subst.
  - auto.
  - pose proof (sanitised_unique h p it it2 Hs Hs2) as Eq. subst it2.
    destruct (IH _ _ I2') as [-> ->]. auto.
  - pose proof (sanitised_unique h p it it2 Hs Hs2) as Eq. subst it2.
    congruence.
  - pose proof (sanitised_unique h p it it2 Hs Hs2) as Eq. subst it2.
    congruence.
  - pose proof (sanitised_unique h p it it2 Hs Hs2) as Eq. subst it2.
    destruct (IH _ _ I2') as [-> ->]. auto.
Qed.

Lemma imports_truthy (h : Host) (k k' : nat) (entries : list value)
      (arr : list Item) :
  imports h k entries arr k' -> Forall (fun it => truthy (id it) = true) arr.
Proof.
  induction 1 as [k | k k' p it rest arr Hs Ht _ IH
                  | k k' p it rest arr Hs Ht _ IH];
    constructor; auto.
  apply new_id_truthy.
Qed.

(** C9, the claim fails: importing a file of two entries that carry the
    same id gives a ledger with that id twice. *)
Lemma C9_counterexample :
  map id (items (uploadJSON sample_host (Some file_duplicate) first_start))
  = [VPrim (PStr "a"); VPrim (PStr "a")]
  /\ strict_eq (VPrim (PStr "a")) (VPrim (PStr "a")) = true.
Proof. split; reflexivity. Qed.

(** C9, amended.  The ledger is an ordered sequence and every operation
    preserves the order of the entries it keeps: add appends the new item,
    which carries a generated non-empty id, at the end; update leaves the
    sequence of ids as it was; remove deletes the entries of the given id
    (ids compared as values) and leaves the others in place; import and
    load take the entries in the order of the file.  Add (when the
    generated id is not in the ledger yet), update and remove keep the ids
    pairwise distinct when they were; import and load keep whatever ids
    the entries carry, repeated or not (import draws one only for an entry
    whose id is missing or falsy). *)
Theorem C9_order_and_ids :
  (forall (h : Host) (val : FormValue) (st : App),
      truthy (f_id val) = false ->
      items (addOrUpdate h false val st)
      = (items st ++ [normalize h val (VPrim (PStr (new_id h (tick st))))])%list
      /\ new_id h (tick st) <> ""
      /\ (distinct_ids (items st) ->
          ~ In (VPrim (PStr (new_id h (tick st)))) (map id (items st)) ->
          distinct_ids (items (addOrUpdate h false val st))))
  /\ (forall (h : Host) (val : FormValue) (st : App),
         truthy (f_id val) = true ->
         map id (items (addOrUpdate h false val st)) = map id (items st)
         /\ (distinct_ids (items st) ->
             distinct_ids (items (addOrUpdate h false val st))))
  /\ (forall (item : Item) (st : App),
         (by_value (id item) (items st) ->
          kept_entries (id item) (items st) (items (remove item st)))
         /\ (distinct_ids (items st) ->
             distinct_ids (items (remove item st))))
  /\ (forall (h : Host) (entries : list value) (st : App)
             (arr : list Item) (k : nat),
         import_all h entries (tick st) = (Some arr, k) ->
         items (uploadJSON h (Some (TDoc (VArr entries))) st) = arr
         /\ imports h (tick st) entries arr k
         /\ map name arr
            = map (fun p => match p with
                            | VObj props => lookup "name" props
                            | _ => undefined
                            end) entries)
  /\ (forall (h : Host) (entries : list value) (arr : list Item),
         sanitize_all h entries = Some arr ->
         items (constructor h (Some (TDoc (VArr entries)))) = arr
         /\ Forall2 (sanitised h) entries arr).
Proof.
  split.
  { intros h val st T. rewrite (add_appends h val st T).
    split; [reflexivity |].
    split; [apply new_id_truthy |].
    intros ND Nin. apply distinct_snoc; assumption. }
  split.
  { intros h val st T. pose proof (update_keeps_ids h val st T) as E.
    split; [exact E |]. unfold distinct_ids. rewrite E. auto. }
  split.
  { intros item st. split; [intros _; apply filter_kept | apply distinct_filter]. }
  split.
  { intros h entries st arr k E.
    rewrite (uploadJSON_array h entries st arr k E).
    split; [reflexivity |].
    pose proof (import_all_imports h entries _ _ _ E) as I.
    split; [exact I |].
    clear E. induction I as [k0 | k0 k1 p it rest arr0 S T _ IH
                             | k0 k1 p it rest arr0 S T _ IH];
      [reflexivity | |]; simpl; rewrite IH; f_equal;
      destruct S as (ps & e & O & _ & _ & _ & _ & _ & N & _);
      rewrite N; destruct p as [q | l | props]; try discriminate O;
      simpl in O; injection O as <- <-; reflexivity. }
  intros h entries arr E. split.
  - unfold constructor, load_items. simpl. rewrite E. reflexivity.
  - eapply Forall2_impl; [| apply sanitize_all_spec; exact E].
    intros p it. apply sanitize_sanitised.
Qed.

Lemma C9_order_witness :
  truthy (f_id form_b_new) = true
  /\ map id (items ledger_ab) = [VPrim (PStr "a"); VPrim (PStr "b")]
  /\ distinct_ids (items ledger_ab)
  /\ distinct_ids (items (addOrUpdate sample_host false form_b_new ledger_ab))
  /\ map tuple (items (addOrUpdate sample_host false form_b_new ledger_ab))
     = [(VPrim (PStr "a"), VPrim (PStr "Widget"), 10, 4, 1, 3)%float;
        (VPrim (PStr "b"), VPrim (PStr "Gizmo"), 25, 12, 3, 2)%float].
Proof.
  assert (T : truthy (f_id form_b_new) = true) by reflexivity.
  assert (D : distinct_ids (items ledger_ab)).
  { unfold distinct_ids. simpl.
    constructor; [intros [E | []]; discriminate E |].
    constructor; [intros [] | constructor]. }
  split; [exact T |]. split; [reflexivity |]. split; [exact D |].
  split; [| reflexivity].
  exact (proj2 (proj1 (proj2 C9_order_and_ids) sample_host form_b_new
                      ledger_ab T) D).
Defined.

(** ** Load from the storage slot (C6) *)

Lemma load_items_not_array (h : Host) (t : text) :
  (forall entries, JSON_parse t <> Some (VArr entries)) ->
  load_items h t = None.
Proof.
  intro H. unfold load_items.
  destruct (JSON_parse t) as [[p | entries | props] |]; try reflexivity.
  exfalso. exact (H entries eq_refl).
Qed.

Lemma constructor_failure (h : Host) (t : text) :
  t <> TEmpty -> load_items h t = None ->
  constructor h (Some t)
  = mkApp [] (Some t) [] ["Failed to parse saved items"] 0.
Proof.
  intros N E. unfold constructor. rewrite E.
  destruct t; [contradiction | reflexivity | reflexivity].
Qed.

Lemma constructor_success (h : Host) (t : text) (arr : list Item) :
  load_items h t = Some arr ->
  constructor h (Some t) = mkApp arr (Some t) [] [] 0.
Proof.
  intro E. unfold constructor. rewrite E.
  destruct t; [discriminate | reflexivity | reflexivity].
Qed.

(** C6, the claim fails on one input: when the slot holds the empty
    string, which is no JSON array, the constructor skips the load (the
    test [if (saved)]), and nothing is logged. *)
Lemma C6_counterexample :
  JSON_parse TEmpty = None
  /\ console (constructor sample_host (Some TEmpty)) = []
  /\ items (constructor sample_host (Some TEmpty)) = [].
Proof. repeat split; reflexivity. Qed.

(** C6, amended.  The constructor always returns a state, with nothing
    alerted and the slot as it was.  When the slot is absent or holds the
    empty string the ledger is empty and nothing is logged.  When it holds
    a non-empty text that is not valid JSON, or whose value is not an
    array, or an array the sanitising loop throws on, the failure is caught,
    one warning is logged and the ledger is empty.  Otherwise the ledger is
    the sanitised array and nothing is logged. *)
Theorem C6_load_never_fails :
  forall (h : Host) (saved : option text),
    (storage (constructor h saved) = saved
     /\ alerts (constructor h saved) = [])
    /\ (saved = None \/ saved = Some TEmpty ->
        items (constructor h saved) = []
        /\ console (constructor h saved) = [])
    /\ (forall t : text,
           saved = Some t -> t <> TEmpty ->
           (forall entries, JSON_parse t <> Some (VArr entries)) ->
           items (constructor h saved) = []
           /\ console (constructor h saved) = ["Failed to parse saved items"])
    /\ (forall (t : text) (entries : list value),
           saved = Some t -> JSON_parse t = Some (VArr entries) ->
           sanitize_all h entries = None ->
           items (constructor h saved) = []
           /\ console (constructor h saved) = ["Failed to parse saved items"])
    /\ (forall (t : text) (entries : list value) (arr : list Item),
           saved = Some t -> JSON_parse t = Some (VArr entries) ->
           sanitize_all h entries = Some arr ->
           items (constructor h saved) = arr
           /\ console (constructor h saved) = []).
Proof.
  intros h saved. split.
  { unfold constructor. destruct saved as [[| | v] |]; simpl; auto;
      destruct (load_items h _); simpl; auto. }
  split.
  { intros [-> | ->]; split; reflexivity. }
  split.
  { intros t -> N H.
    rewrite (constructor_failure h t N (load_items_not_array h t H)).
    split; reflexivity. }
  split.
  { intros t entries -> P E.
    assert (N : t <> TEmpty) by (intros ->; discriminate P).
    assert (L : load_items h t = None).
    { unfold load_items. rewrite P. exact E. }
    rewrite (constructor_failure h t N L). split; reflexivity. }
  intros t entries arr -> P E.
  assert (L : load_items h t = Some arr).
  { unfold load_items. rewrite P. exact E. }
  rewrite (constructor_success h t arr L). split; reflexivity.
Qed.

Lemma C6_load_witness :
  TMalformed <> TEmpty
  /\ (forall entries, JSON_parse TMalformed <> Some (VArr entries))
  /\ items (constructor sample_host (Some TMalformed)) = []
  /\ console (constructor sample_host (Some TMalformed))
     = ["Failed to parse saved items"].
Proof.
  assert (N : TMalformed <> TEmpty) by discriminate.
  assert (H : forall entries, JSON_parse TMalformed <> Some (VArr entries))
    by discriminate.
  split; [exact N |]. split; [exact H |].
  exact (proj1 (proj2 (proj2 (C6_load_never_fails sample_host
                                                   (Some TMalformed))))
               TMalformed eq_refl N H).
Defined.

(** ** JSON import (C4) *)

Lemma import_entry_cases (h : Host) (p : value) (k : nat) :
  (exists it k', import_entry h p k = (Some it, k') /\ sanitizable h p)
  \/ (import_entry h p k = (None, k) /\ ~ sanitizable h p).
Proof.
  unfold import_entry, sanitizable.
  destruct (sanitize h p) as [it0 |].
  - left. destruct (truthy (id it0)); eauto.
  - right. split; [reflexivity |]. intros [it E]. discriminate E.
Qed.

Lemma import_all_cases (h : Host) (entries : list value) :
  forall k,
    (exists arr k',
        import_all h entries k = (Some arr, k')
        /\ Forall (sanitizable h) entries)
    \/ (exists k',
           import_all h entries k = (None, k')
           /\ ~ Forall (sanitizable h) entries).
Proof.
  induction entries as [| p rest IH]; simpl; intro k.
  - left. eauto.
  - destruct (import_entry_cases h p k) as [(it & k1 & E1 & S1) | (E1 & S1)];
      rewrite E1.
    + destruct (IH k1) as [(arr & k2 & E2 & S2) | (k2 & E2 & S2)]; rewrite E2.
      * left. eauto.
      * right. exists k2. split; [reflexivity |].
        intro F. inversion F; subst. contradiction.
    + right. exists k. split; [reflexivity |].
      intro F. inversion F; subst. contradiction.
Qed.

Lemma coerce_some (h : Host) (v : value) :
  Number h v <> None -> exists x, coerce h v = Some x.
Proof.
  unfold coerce. destruct (Number h v) as [y |]; simpl; intro H.
  - exists (or0 y). reflexivity.
  - congruence.
Qed.

Lemma sanitizable_object (h : Host) (props : list (string * value)) :
  sanitizable h (VObj props)
  <-> Number h (lookup "price" props) <> None
      /\ Number h (lookup "cost" props) <> None
      /\ Number h (lookup "amazonFees" props) <> None
      /\ Number h (lookup "sold" props) <> None.
Proof.
  unfold sanitizable, sanitize. simpl. split.
  - intros [it H]. unfold coerce in H.
    destruct (Number h (lookup "price" props)); [| discriminate].
    destruct (Number h (lookup "cost" props)); [| discriminate].
    destruct (Number h (lookup "amazonFees" props)); [| discriminate].
    destruct (Number h (lookup "sold" props)); [| discriminate].
    repeat split; discriminate.
  - intros (P & C & F & S).
    destruct (coerce_some h _ P) as [p ->].
    destruct (coerce_some h _ C) as [c ->].
    destruct (coerce_some h _ F) as [f ->].
    destruct (coerce_some h _ S) as [s ->].
    eauto.
Qed.

Lemma sanitizable_array (h : Host) (l : list value) : sanitizable h (VArr l).
Proof. unfold sanitizable, sanitize. simpl. eauto. Qed.

Lemma not_sanitizable_prim (h : Host) (q : prim) : ~ sanitizable h (VPrim q).
Proof. intros [it H]. discriminate H. Qed.

(** C4, the claim fails: a file that is valid JSON and whose value is an
    array (of one entry, [null]) is rejected all the same; the ledger is
    left as it was and a message is shown. *)
Lemma C4_counterexample :
  JSON_parse file_null_entry = Some (VArr [VPrim PNull])
  /\ items (uploadJSON sample_host (Some file_null_entry) one_item)
     = items one_item
  /\ storage (uploadJSON sample_host (Some file_null_entry) one_item)
     = storage one_item
  /\ alerts (uploadJSON sample_host (Some file_null_entry) one_item)
     = ["Invalid JSON file"].
Proof. repeat split; reflexivity. Qed.

(** C4, amended.  The import leaves the ledger and the slot as they were
    and shows a message exactly when the file is not valid JSON, or its
    value is not an array, or it is an array with an entry the sanitising
    loop throws on (an entry that is [null] or a primitive, or an object one
    of whose four numeric fields cannot be converted to a number).
    Otherwise, the value being an array of objects that convert, no message
    is shown, the collection is replaced by the entries in file order, each
    with its four numeric fields sanitised, and the result is written to
    the slot.  An entry whose id is missing or falsy receives a freshly
    generated non-empty id: the identifier of the next draw of the clock
    and the random source, one draw for each such entry and for no other.
    On the file of the fifth testable property the result is one item of
    price 10, cost 0, fees 0 and 5 sold, with a generated id. *)
Theorem C4_import :
  forall (h : Host) (t : text) (st : App),
    (JSON_parse t = None ->
     items (uploadJSON h (Some t) st) = items st
     /\ storage (uploadJSON h (Some t) st) = storage st
     /\ alerts (uploadJSON h (Some t) st) = "Invalid JSON file" :: alerts st)
    /\ (forall v : value,
           JSON_parse t = Some v -> (forall entries, v <> VArr entries) ->
           items (uploadJSON h (Some t) st) = items st
           /\ storage (uploadJSON h (Some t) st) = storage st
           /\ alerts (uploadJSON h (Some t) st)
              = "Uploaded JSON must be an array of items" :: alerts st)
    /\ (forall entries : list value,
           JSON_parse t = Some (VArr entries) ->
           ~ Forall (sanitizable h) entries ->
           items (uploadJSON h (Some t) st) = items st
           /\ storage (uploadJSON h (Some t) st) = storage st
           /\ alerts (uploadJSON h (Some t) st)
              = "Invalid JSON file" :: alerts st)
    /\ (forall entries : list value,
           JSON_parse t = Some (VArr entries) ->
           Forall (sanitizable h) entries ->
           imports h (tick st) entries (items (uploadJSON h (Some t) st))
                   (tick (uploadJSON h (Some t) st))
           /\ (forall (arr : list Item) (k : nat),
                  imports h (tick st) entries arr k ->
                  arr = items (uploadJSON h (Some t) st)
                  /\ k = tick (uploadJSON h (Some t) st))
           /\ Forall (fun it => truthy (id it) = true)
                     (items (uploadJSON h (Some t) st))
           /\ Forall item_ok (items (uploadJSON h (Some t) st))
           /\ storage (uploadJSON h (Some t) st)
              = Some (JSON_stringify (items (uploadJSON h (Some t) st)))
           /\ alerts (uploadJSON h (Some t) st) = alerts st)
    /\ ((forall q : prim, ~ sanitizable h (VPrim q))
        /\ (forall l : list value, sanitizable h (VArr l))
        /\ (forall props : list (string * value),
               sanitizable h (VObj props)
               <-> Number h (lookup "price" props) <> None
                   /\ Number h (lookup "cost" props) <> None
                   /\ Number h (lookup "amazonFees" props) <> None
                   /\ Number h (lookup "sold" props) <> None))
    /\ (StringToNumber h "10" = 10%float ->
        is_nan (StringToNumber h "x") = true ->
        items (uploadJSON h (Some file_widget) st)
        = [mkItem (VPrim (PStr (new_id h (tick st))))
                  (VPrim (PStr "Widget")) 10 0 0 5 [] None]
        /\ new_id h (tick st) <> "")
    /\ (map id (items (uploadJSON h (Some file_two_without_id) st))
        = [VPrim (PStr (new_id h (tick st))); VPrim (PStr "b");
           VPrim (PStr (new_id h (S (tick st))))]
        /\ tick (uploadJSON h (Some file_two_without_id) st)
           = S (S (tick st))).
Proof.
  intros h t st. split.
  { intro P. unfold uploadJSON. rewrite P. repeat split; reflexivity. }
  split.
  { intros v P N. unfold uploadJSON. rewrite P.
    destruct v as [q | entries | props]; try (repeat split; reflexivity).
    exfalso. exact (N entries eq_refl). }
  split.
  { intros entries P N. unfold uploadJSON. rewrite P.
    destruct (import_all_cases h entries (tick st))
      as [(arr & k & E & S) | (k & E & S)]; [contradiction |].
    rewrite E. repeat split; reflexivity. }
  split.
  { intros entries P S. unfold uploadJSON. rewrite P.
    destruct (import_all_cases h entries (tick st))
      as [(arr & k & E & _) | (k & E & N)]; [| contradiction].
    rewrite E. simpl.
    pose proof (import_all_imports h entries _ _ _ E) as I.
    split; [exact I |].
    split.
    { intros arr' k' I'.
      destruct (imports_unique h _ _ _ _ I _ _ I') as [-> ->]. auto. }
    split.
    { eapply imports_truthy; exact I. }
    split; [eapply import_all_ok; eassumption |].
    split; reflexivity. }
  split.
  { split; [apply not_sanitizable_prim |].
    split; [apply sanitizable_array | apply sanitizable_object]. }
  split.
  { intros E10 Ex. split; [| apply new_id_truthy].
    unfold uploadJSON, file_widget, import_all, import_entry, sanitize, coerce.
    simpl. rewrite E10. rewrite (or0_nan _ Ex).
    reflexivity. }
  split; reflexivity.
Qed.

Lemma C4_import_witness :
  StringToNumber sample_host "10" = 10%float
  /\ is_nan (StringToNumber sample_host "x") = true
  /\ items (uploadJSON sample_host (Some file_widget) first_start)
     = [mkItem (VPrim (PStr "loyw3v284fzyo")) (VPrim (PStr "Widget"))
               10 0 0 5 [] None]
  /\ map id (items (uploadJSON sample_host (Some file_two_without_id)
                               first_start))
     = [VPrim (PStr "loyw3v284fzyo"); VPrim (PStr "b");
        VPrim (PStr "loyw3v294fzyo")].
Proof.
  assert (E10 : StringToNumber sample_host "10" = 10%float) by reflexivity.
  assert (Ex : is_nan (StringToNumber sample_host "x") = true) by reflexivity.
  split; [exact E10 |]. split; [exact Ex |].
  split.
  - exact (proj1 (proj1 (proj2 (proj2 (proj2 (proj2 (proj2
             (C4_import sample_host file_widget first_start)))))) E10 Ex)).
  - exact (proj1 (proj2 (proj2 (proj2 (proj2 (proj2 (proj2
             (C4_import sample_host file_widget first_start)))))))).
Defined.

(** ** The JSON round trip (C7) *)

Lemma json_num_stable (x : float) :
  is_finite x = true -> clean x -> json_num x = VPrim (PNum x).
Proof.
  intros F [_ Z]. unfold json_num. rewrite F.
  destruct (is_zero x) eqn:E; [| reflexivity].
  rewrite (Z eq_refl). reflexivity.
Qed.

Lemma truthy_defined (v : value) : truthy v = true -> v <> undefined.
Proof. intros T ->. discriminate T. Qed.

Lemma lookup_json_hit (k : string) (v : value)
      (rest : list (string * value)) :
  v <> undefined ->
  lookup k (json_props ((k, v) :: rest)) = json_of v.
Proof.
  intro N.
  assert (E : json_props ((k, v) :: rest) = (k, json_of v) :: json_props rest).
  { destruct v as [[| | b | x | s] | l | ps]; try reflexivity.
    exfalso. apply N. reflexivity. }
  rewrite E. simpl. rewrite String.eqb_refl. reflexivity.
Qed.

Lemma lookup_json_miss (k k' : string) (v : value)
      (rest : list (string * value)) :
  String.eqb k k' = false ->
  lookup k (json_props ((k', v) :: rest)) = lookup k (json_props rest).
Proof.
  intro N.
  destruct v as [[| | b | x | s] | l | ps]; simpl; try rewrite N;
    reflexivity.
Qed.

Lemma lookup_json_absent (k : string) (props : list (string * value)) :
  Forall (fun kv => String.eqb k (fst kv) = false) props ->
  lookup k (json_props props) = undefined.
Proof.
  induction 1 as [| [k' v] props E _ IH]; [reflexivity |].
  rewrite lookup_json_miss by exact E. exact IH.
Qed.

Lemma item_wf_no_name (it : Item) :
  item_wf it ->
  Forall (fun kv => String.eqb "name" (fst kv) = false) (others it).
Proof.
  unfold item_wf. apply Forall_impl. intros [k v] H.
  cbn [fst] in *. unfold is_item_key, item_keys in H. simpl in H.
  apply orb_false_iff in H. destruct H as [_ H].
  apply orb_false_iff in H. destruct H as [H _].
  rewrite String.eqb_sym. exact H.
Qed.

Ltac step_miss := rewrite lookup_json_miss by reflexivity.

(** What the import reads in the object [JSON.stringify] wrote for an item
    that survives. *)
Lemma item_json_lookups (it : Item) :
  item_ok it -> item_wf it -> survives_json it ->
  let props := json_props (item_props it) in
  lookup "id" props = id it
  /\ lookup "name" props = name it
  /\ lookup "price" props = VPrim (PNum (price it))
  /\ lookup "cost" props = VPrim (PNum (cost it))
  /\ lookup "amazonFees" props = VPrim (PNum (amazonFees it))
  /\ lookup "sold" props = VPrim (PNum (sold it)).
Proof.
  intros (Pk & Ck & Fk & Sk) W (_ & T & Ji & Jn & Pf & Cf & Ff & Sf).
  cbv zeta. unfold item_props. cbn [app].
  pose proof (truthy_defined _ T) as Di.
  split; [rewrite lookup_json_hit by exact Di; exact Ji |].
  split.
  { step_miss. destruct Jn as [U | Jn].
    - rewrite U. simpl. apply lookup_json_absent.
      apply item_wf_no_name. exact W.
    - destruct (name it) as [[| | b | x | s] | l | ps] eqn:En;
        [discriminate Jn | ..];
        (rewrite lookup_json_hit by discriminate; exact Jn). }
  split.
  { do 2 step_miss. rewrite lookup_json_hit by discriminate.
    apply json_num_stable; assumption. }
  split.
  { do 3 step_miss. rewrite lookup_json_hit by discriminate.
    apply json_num_stable; assumption. }
  split.
  { do 4 step_miss. rewrite lookup_json_hit by discriminate.
    apply json_num_stable; assumption. }
  do 5 step_miss. rewrite lookup_json_hit by discriminate.
  apply json_num_stable; assumption.
Qed.

Lemma coerce_clean_number (h : Host) (x : float) :
  clean x -> coerce h (VPrim (PNum x)) = Some x.
Proof.
  intro C. unfold coerce. simpl. rewrite (or0_id x C). reflexivity.
Qed.

Lemma import_item_json (h : Host) (it : Item) (k : nat) :
  item_ok it -> item_wf it -> survives_json it ->
  exists it' : Item,
    import_entry h (item_json it) k = (Some it', k) /\ tuple it' = tuple it.
Proof.
  intros O W S.
  destruct (item_json_lookups it O W S) as (Li & Ln & Lp & Lc & Lf & Ls).
  destruct O as (Pk & Ck & Fk & Sk).
  destruct S as (El & T & _).
  unfold item_json. rewrite El.
  remember (json_props (item_props it)) as props eqn:Ep.
  simpl in Li, Ln, Lp, Lc, Lf, Ls.
  exists (mkItem (id it) (name it) (price it) (cost it) (amazonFees it)
                 (sold it) (other_props props) None).
  split; [| reflexivity].
  unfold import_entry, sanitize. simpl.
  rewrite Li, Ln, Lp, Lc, Lf, Ls.
  rewrite !coerce_clean_number by assumption.
  simpl. rewrite T. reflexivity.
Qed.

Lemma import_all_json (h : Host) (arr : list Item) :
  Forall item_ok arr -> Forall item_wf arr -> Forall survives_json arr ->
  forall k : nat,
  exists arr' : list Item,
    import_all h (map item_json arr) k = (Some arr', k)
    /\ map tuple arr' = map tuple arr.
Proof.
  induction arr as [| it arr IH]; intros O W S k.
  - exists []. split; reflexivity.
  - inversion O; inversion W; inversion S; subst.
    destruct (import_item_json h it k) as (it' & E1 & T1); try assumption.
    destruct (IH ltac:(assumption) ltac:(assumption) ltac:(assumption) k)
      as (arr' & E2 & T2).
    exists (it' :: arr'). simpl. rewrite E1, E2.
    split; [reflexivity |]. simpl. rewrite T1, T2. reflexivity.
Qed.

Lemma roundtrip_tuples (h : Host) (st st2 : App) :
  Forall item_ok (items st) -> Forall item_wf (items st) ->
  Forall survives_json (items st) ->
  map tuple (items (uploadJSON h (Some (snd (downloadJSON st))) st2))
  = map tuple (items st).
Proof.
  intros O W S.
  destruct (import_all_json h (items st) O W S (tick st2)) as (arr' & E & T).
  unfold uploadJSON, downloadJSON, JSON_stringify. simpl.
  rewrite E. simpl. exact T.
Qed.

(** An item typed as the interface says, with finite numbers, survives. *)
Lemma typed_item_survives (i n : string) (p c f s : float)
      (o : list (string * value)) :
  i <> "" ->
  is_finite p = true -> is_finite c = true -> is_finite f = true ->
  is_finite s = true ->
  survives_json (mkItem (VPrim (PStr i)) (VPrim (PStr n)) p c f s o None).
Proof.
  intros N Pf Cf Ff Sf. unfold survives_json. simpl.
  destruct (String.eqb_spec i ""); [contradiction |].
  repeat split; auto.
Qed.

(** C7, the claim fails: the ledger holding the one item of
    [file_negative], whose cost is infinite, is written with the cost
    [null], and the import reads the cost 0. *)
Lemma C7_counterexample :
  map cost (items one_item) = [infinity]
  /\ map cost
         (items (uploadJSON sample_host (Some (snd (downloadJSON one_item)))
                            one_item))
     = [zero]
  /\ Leibniz.eqb infinity zero = false.
Proof. repeat split; reflexivity. Qed.

(** C7, amended.  For every ledger the component holds whose items are
    plain objects with finite numeric fields and with an id (truthy) and a
    name that JSON carries unharmed (for one, a non-empty string id and a
    string name), serialising it, parsing the text and importing the parsed
    value yields a collection with the same sequence, hence the same
    multiset, of tuples of id, name, price, cost, amazonFees and sold. *)
Theorem C7_roundtrip :
  (forall (h : Host) (st st2 : App),
      reachable h st ->
      Forall survives_json (items st) ->
      map tuple (items (uploadJSON h (Some (snd (downloadJSON st))) st2))
      = map tuple (items st)
      /\ Permutation
           (map tuple
                (items (uploadJSON h (Some (snd (downloadJSON st))) st2)))
           (map tuple (items st)))
  /\ (forall (i n : string) (p c f s : float) (o : list (string * value)),
         i <> "" ->
         is_finite p = true -> is_finite c = true -> is_finite f = true ->
         is_finite s = true ->
         survives_json
           (mkItem (VPrim (PStr i)) (VPrim (PStr n)) p c f s o None)).
Proof.
  split; [| exact typed_item_survives].
  intros h st st2 R S.
  assert (E : map tuple
                  (items (uploadJSON h (Some (snd (downloadJSON st))) st2))
              = map tuple (items st)).
  { apply roundtrip_tuples;
      [apply (reachable_ok h) | apply (reachable_wf h) |]; assumption. }
  split; [exact E |]. rewrite E. apply Permutation_refl.
Qed.

Ltac survives_literal :=
  unfold survives_json; simpl;
  repeat (split; [reflexivity |]); split; [right; reflexivity |];
  repeat split; reflexivity.

Lemma C7_roundtrip_witness :
  reachable sample_host two_items
  /\ Forall survives_json (items two_items)
  /\ map tuple
         (items (uploadJSON sample_host (Some (snd (downloadJSON two_items)))
                            first_start))
     = map tuple (items two_items).
Proof.
  assert (R : reachable sample_host two_items).
  { apply reach_uploadJSON. apply reach_constructor. }
  assert (S : Forall survives_json (items two_items)).
  { simpl.
    constructor; [survives_literal
                 | constructor; [survives_literal | constructor]]. }
  split; [exact R |]. split; [exact S |].
  exact (proj1 (proj1 C7_roundtrip sample_host two_items first_start R S)).
Defined.

(** ** CSV export (C8) *)















(** * Further properties *)

(** ** Search *)

Lemma string_app_assoc (a b c : string) : (a ++ b) ++ c = a ++ (b ++ c).
Proof. induction a as [| x a IH]; simpl; [reflexivity | rewrite IH; reflexivity]. Qed.

Lemma prefix_app (q s : string) :
  String.prefix q s = true <-> exists b, s = q ++ b.
Proof.
  revert s. induction q as [| c q IH]; intro s.
  - split; [intros _; exists s; reflexivity | intros _; destruct s; reflexivity].
  - destruct s as [| d s]; simpl.
    + split; [discriminate | intros [b E]; discriminate E].
    + destruct (Ascii.ascii_dec c d) as [-> | N].
      * rewrite IH. split; intros [b E]; exists b; [rewrite E; reflexivity |].
        injection E as E. exact E.
      * split; [discriminate | intros [b E]; injection E as E1 E2; congruence].
Qed.

Lemma includes_app (s q : string) :
  includes s q = true <-> exists a b, s = a ++ q ++ b.
Proof.
  induction s as [| c s IH]; cbn [includes].
  - destruct (String.prefix q "") eqn:P.
    + split; [intros _ | reflexivity].
      apply prefix_app in P. destruct P as [b E]. exists "", b. exact E.
    + split; [discriminate |]. intros (a & b & E).
      destruct a; [| discriminate E]. simpl in E.
      assert (String.prefix q "" = true) by (apply prefix_app; eauto).
      congruence.
  - destruct (String.prefix q (String c s)) eqn:P.
    + split; [intros _ | reflexivity].
      apply prefix_app in P. destruct P as [b E]. exists "", b. exact E.
    + rewrite IH. split.
      * intros (a & b & E). exists (String c a), b. rewrite E. reflexivity.
      * intros (a & b & E). destruct a as [| d a].
        -- simpl in E.
           assert (String.prefix q (String c s) = true)
             by (apply prefix_app; eauto).
           congruence.
        -- injection E as _ E. eauto.
Qed.

Lemma includes_trans (s q1 q0 : string) :
  includes s q1 = true -> includes q1 q0 = true -> includes s q0 = true.
Proof.
  rewrite !includes_app. intros (a & b & ->) (a' & b' & ->).
  exists (a ++ a'), (b' ++ b). rewrite !string_app_assoc. reflexivity.
Qed.

Lemma filter_names_strings (th : TextHost) (q : string) (arr : list Item) :
  Forall (fun i => exists s, name i = VPrim (PStr s)) arr ->
  filter_names th q arr
  = Some (filter (fun i => match name_lower th (name i) with
                           | Some n => includes n q
                           | None => false
                           end) arr).
Proof.
  induction 1 as [| i arr [s E] _ IH]; [reflexivity |].
  simpl. rewrite IH, E. simpl. reflexivity.
Qed.

Lemma filter_names_throws (th : TextHost) (q : string) (arr : list Item) :
  filter_names th q arr = None
  <-> Exists (fun i => forall s, name i <> VPrim (PStr s)) arr.
Proof.
  induction arr as [| i arr IH]; simpl.
  - split; [discriminate | intro E; inversion E].
  - destruct (name i) as [[| | b | x | s] | l | ps] eqn:En; simpl;
      try (split; [intros _; left; rewrite En; discriminate | reflexivity]).
    destruct (filter_names th q arr) as [kept |].
    + split; [discriminate |]. intro E. inversion E as [? ? H | ? ? H]; subst.
      * exfalso. exact (H s En).
      * apply IH in H. discriminate H.
    + split; [intros _; right; apply IH; reflexivity | reflexivity].
Qed.

Lemma filter_names_In (th : TextHost) (q : string) (arr : list Item) :
  forall kept,
    filter_names th q arr = Some kept ->
    forall i, In i kept
              <-> In i arr /\ exists s, name i = VPrim (PStr s)
                                        /\ includes (toLowerCase th s) q = true.
Proof.
  induction arr as [| j arr IH]; simpl; intros kept H i.
  - injection H as <-. simpl. tauto.
  - destruct (name j) as [[| | b | x | s] | l | ps] eqn:En; try discriminate.
    simpl in H.
    destruct (filter_names th q arr) as [kept0 |]; [| discriminate].
    injection H as <-. specialize (IH kept0 eq_refl i).
    destruct (includes (toLowerCase th s) q) eqn:I; simpl; rewrite IH.
    + split.
      * intros [<- | [H1 H2]]; [| tauto]. split; [tauto | eauto].
      * intros [[<- | H1] H2]; tauto.
    + split; [tauto |].
      intros [[<- | H1] (s' & E & H2)]; [| eauto].
      rewrite En in E. injection E as <-. congruence.
Qed.


Lemma filtered_throws (th : TextHost) (search : string) (arr : list Item) :
  filtered th search arr = None
  <-> toLowerCase th (trim th search) <> ""
      /\ Exists (fun i => forall s, name i <> VPrim (PStr s)) arr.
Proof.
  unfold filtered.
  destruct (String.eqb_spec (toLowerCase th (trim th search)) "") as [E | N].
  - split; [discriminate | intros [C _]; contradiction].
  - rewrite filter_names_throws. tauto.
Qed.

Lemma filtered_In (th : TextHost) (search : string) (arr k : list Item) :
  filtered th search arr = Some k ->
  (forall i, In i k -> In i arr)
  /\ (toLowerCase th (trim th search) <> "" ->
      forall i, In i k ->
                exists s, name i = VPrim (PStr s)
                          /\ includes (toLowerCase th s)
                                      (toLowerCase th (trim th search))
                             = true).
Proof.
  unfold filtered. set (q := toLowerCase th (trim th search)). intro H.
  destruct (String.eqb_spec q "") as [E | N].
  - injection H as <-. split; [auto | contradiction].
  - split; intros; [| intros];
      match goal with Hi : In _ k |- _ =>
        apply (filter_names_In th q _ _ H) in Hi end; tauto.
Qed.

Lemma filtered_narrows (th : TextHost) (s0 s1 : string)
      (arr k0 k1 : list Item) :
  filtered th s0 arr = Some k0 ->
  filtered th s1 arr = Some k1 ->
  includes (toLowerCase th (trim th s1)) (toLowerCase th (trim th s0)) = true ->
  forall i, In i k1 -> In i k0.
Proof.
  intros H0 H1 I i Hi.
  destruct (filtered_In th s1 arr k1 H1) as [A1 A2].
  revert H0. unfold filtered.
  set (q0 := toLowerCase th (trim th s0)) in *.
  set (q1 := toLowerCase th (trim th s1)) in *.
  destruct (String.eqb_spec q0 "") as [E0 | N0]; intro H0.
  - injection H0 as <-. auto.
  - apply (filter_names_In th q0 _ _ H0). split; [auto |].
    destruct (String.eqb_spec q1 "") as [E1 | N1].
    + exfalso. rewrite E1 in I. apply includes_app in I.
      destruct I as (a & b & E). destruct a; [| discriminate E].
      simpl in E. destruct q0; [contradiction | discriminate E].
    + destruct (A2 N1 i Hi) as (s & En & Is).
      exists s. split; [exact En |].
      eapply includes_trans; eassumption.
Qed.

(** X1. A read of [filteredItems] that runs the function throws exactly
    when the query, trimmed and lower-cased, is not empty and some item has
    a name that is not a string; an empty query gives the whole collection
    back; a query that contains another finds no item the other does not
    find; and the result is kept.  A read that does not run the function
    gives the kept result back and leaves the component as it is, whatever
    [search] holds. *)
Theorem X1_search_read :
  forall (th : TextHost) (search : string) (v : View),
    (cached v = None ->
     (fst (filteredItems th search v) = None
      <-> toLowerCase th (trim th search) <> ""
          /\ Exists (fun i => forall s, name i <> VPrim (PStr s))
                    (items (comp v)))
     /\ (toLowerCase th (trim th search) = "" ->
         fst (filteredItems th search v) = Some (items (comp v)))
     /\ (forall (s1 : string) (k0 k1 : list Item),
            fst (filteredItems th search v) = Some k0 ->
            fst (filteredItems th s1 v) = Some k1 ->
            includes (toLowerCase th (trim th s1))
                     (toLowerCase th (trim th search)) = true ->
            forall i, In i k1 -> In i k0)
     /\ snd (filteredItems th search v)
        = mkView (comp v) (Some (fst (filteredItems th search v))))
    /\ (forall r : option (list Item),
           cached v = Some r ->
           forall s1 : string, filteredItems th s1 v = (r, v)).
Proof.
  intros th search v. unfold filteredItems. split.
  - intro C. rewrite C. cbn [fst snd].
    split; [apply filtered_throws |].
    split.
    { intro E. unfold filtered. rewrite E. reflexivity. }
    split; [| reflexivity].
    intros s1 k0 k1 H0 H1 I. eapply filtered_narrows; eassumption.
  - intros r C s1. rewrite C. reflexivity.
Qed.

Lemma import_keeps_items (h : Host) (file : option text) (st : App) :
  import_sets_items h file st = false ->
  items (uploadJSON h file st) = items st.
Proof.
  unfold import_sets_items, uploadJSON.
  destruct file as [t |]; [| reflexivity].
  destruct (JSON_parse t) as [[q | entries | props] |]; try reflexivity.
  destruct (import_all h entries (tick st)) as [[arr |] k];
    [discriminate | reflexivity].
Qed.

Lemma reachable_view_cached (h : Host) (th : TextHost) (v : View) :
  reachable_view h th v ->
  reachable h (comp v)
  /\ forall r, cached v = Some r ->
               exists s, r = filtered th s (items (comp v)).
Proof.
  induction 1 as [saved | invalid val v _ [R IH] | item v _ [R IH]
                  | file v _ [R IH] | search v _ [R IH]].
  - split; [apply reach_constructor | discriminate].
  - split; [apply reach_addOrUpdate; exact R |].
    simpl. destruct invalid; [exact IH | discriminate].
  - split; [apply reach_remove; exact R | discriminate].
  - split; [apply reach_uploadJSON; exact R |].
    simpl. destruct (import_sets_items h file (comp v)) eqn:E;
      [discriminate |].
    rewrite (import_keeps_items h file (comp v) E). exact IH.
  - unfold filteredItems. destruct (cached v) as [r0 |] eqn:C.
    + split; [exact R |]. simpl. rewrite C. exact IH.
    + split; [exact R |]. simpl. intros r Er. injection Er as <-.
      exists search. reflexivity.
Qed.

(** X2. What [filteredItems] returns is never stale with respect to the
    collection: in every state of the component and its signal, a read
    returns what the function gives on the current collection for some
    value of [search] (the one in force when the function last ran).  The
    items it returns are items of the current collection, and it throws
    only if a current item has a name that is not a string. *)
Theorem X2_search_result_is_current :
  forall (h : Host) (th : TextHost) (v : View) (search : string),
    reachable_view h th v ->
    (exists s : string,
        fst (filteredItems th search v) = filtered th s (items (comp v)))
    /\ (forall k : list Item,
           fst (filteredItems th search v) = Some k ->
           forall i, In i k -> In i (items (comp v)))
    /\ (fst (filteredItems th search v) = None ->
        Exists (fun i => forall s, name i <> VPrim (PStr s))
               (items (comp v)))
    /\ reachable h (comp v).
Proof.
  intros h th v search R.
  destruct (reachable_view_cached h th v R) as [Ra IH].
  assert (A : exists s : string,
             fst (filteredItems th search v)
             = filtered th s (items (comp v))).
  { unfold filteredItems. destruct (cached v) as [r |] eqn:C.
    - exact (IH r eq_refl).
    - exists search. reflexivity. }
  split; [exact A |]. destruct A as [s E]. rewrite E.
  split; [| split; [| exact Ra]].
  - intros k Hk. apply (filtered_In th s _ _ Hk).
  - intro Hn. apply filtered_throws in Hn. tauto.
Qed.

Lemma X2_search_current_witness :
  reachable_view sample_host sample_text_host
    (snd (filteredItems sample_text_host ""
            (view_uploadJSON sample_host (Some file_ab)
               (view_constructor sample_host None))))
  /\ fst (filteredItems sample_text_host " IDG "
            (view_uploadJSON sample_host (Some file_ab)
               (view_constructor sample_host None)))
     = Some (firstn 1 (items ledger_ab))
  /\ fst (filteredItems sample_text_host " IDG "
            (snd (filteredItems sample_text_host ""
                    (view_uploadJSON sample_host (Some file_ab)
                       (view_constructor sample_host None)))))
     = Some (items ledger_ab)
  /\ (forall i,
         In i (items ledger_ab) ->
         In i (items (comp (snd (filteredItems sample_text_host ""
                                   (view_uploadJSON sample_host (Some file_ab)
                                      (view_constructor sample_host
                                                        None))))))).
Proof.
  assert (R : reachable_view sample_host sample_text_host
                (snd (filteredItems sample_text_host ""
                        (view_uploadJSON sample_host (Some file_ab)
                           (view_constructor sample_host None))))).
  { apply view_reach_read, view_reach_uploadJSON, view_reach_constructor. }
  split; [exact R |]. split; [reflexivity |]. split; [reflexivity |].
  exact (proj1 (proj2 (X2_search_result_is_current sample_host
                         sample_text_host _ " IDG " R))
               (items ledger_ab) eq_refl).
Defined.


(** ** The ledger and the storage slot *)

Lemma constructor_storage (h : Host) (saved : option text) :
  storage (constructor h saved) = saved.
Proof.
  unfold constructor. destruct saved as [[| | v] |]; simpl; auto;
    destruct (load_items h _); reflexivity.
Qed.

Lemma in_step_same (h : Host) (st st' : App) :
  items st' = items st -> storage st' = storage st ->
  in_step h st -> in_step h st'.
Proof.
  unfold in_step. intros Ei Es [S | L]; rewrite Ei, Es; auto.
Qed.

Lemma addOrUpdate_in_step (h : Host) (invalid : bool) (val : FormValue)
      (st : App) :
  in_step h st -> in_step h (addOrUpdate h invalid val st).
Proof.
  intro H. unfold addOrUpdate. destruct invalid; [exact H |].
  destruct (truthy (f_id val)); left; reflexivity.
Qed.

Lemma uploadJSON_in_step (h : Host) (file : option text) (st : App) :
  in_step h st -> in_step h (uploadJSON h file st).
Proof.
  intro H. unfold uploadJSON.
  destruct file as [t |]; [| exact H].
  destruct (JSON_parse t) as [[p | entries | props] |];
    try (eapply in_step_same; [| | exact H]; reflexivity).
  destruct (import_all h entries (tick st)) as [[arr |] k].
  - left. reflexivity.
  - eapply in_step_same; [| | exact H]; reflexivity.
Qed.

Lemma reachable_in_step (h : Host) (st : App) :
  reachable h st -> in_step h st.
Proof.
  induction 1.
  - right. rewrite constructor_storage. reflexivity.
  - apply addOrUpdate_in_step. assumption.
  - left. reflexivity.
  - apply uploadJSON_in_step. assumption.
Qed.

(** X3. The ledger and the storage slot never drift apart: in every state
    the component reaches, the slot holds the serialised ledger, or the
    ledger is what the constructor reads in the slot (nothing has been
    changed since the start). *)
Theorem X3_ledger_and_slot_in_step :
  forall (h : Host) (st : App),
    reachable h st ->
    storage st = Some (JSON_stringify (items st))
    \/ items st = items (constructor h (storage st)).
Proof. exact reachable_in_step. Qed.

Lemma X3_in_step_witness :
  reachable sample_host one_item
  /\ storage one_item = Some (JSON_stringify (items one_item)).
Proof.
  assert (R : reachable sample_host one_item).
  { apply reach_uploadJSON. apply reach_constructor. }
  split; [exact R |].
  destruct (X3_ledger_and_slot_in_step sample_host one_item R) as [S | L].
  - exact S.
  - reflexivity.
Defined.

Lemma item_wf_no_key (it : Item) (k : string) :
  item_wf it -> is_item_key k = true ->
  Forall (fun kv => String.eqb k (fst kv) = false) (others it).
Proof.
  unfold item_wf. intros W K. eapply Forall_impl; [| exact W].
  intros [k' v] H. cbn [fst] in *.
  destruct (String.eqb_spec k k') as [-> | N]; [congruence | reflexivity].
Qed.

Lemma stable_lookup (k : string) (v : value) (rest : list (string * value)) :
  v = undefined \/ json_of v = v ->
  lookup k (json_props rest) = undefined ->
  lookup k (json_props ((k, v) :: rest)) = v.
Proof.
  intros [-> | J] A.
  - simpl. exact A.
  - destruct v as [[| | b | x | s] | l | ps];
      [discriminate J | ..];
      (rewrite lookup_json_hit by discriminate; exact J).
Qed.

(** What the constructor reads in the object [JSON.stringify] wrote for an
    item that survives a reload. *)
Lemma item_json_lookups_reload (it : Item) :
  item_ok it -> item_wf it -> survives_reload it ->
  lookup "id" (json_props (item_props it)) = id it
  /\ lookup "name" (json_props (item_props it)) = name it
  /\ lookup "price" (json_props (item_props it)) = VPrim (PNum (price it))
  /\ lookup "cost" (json_props (item_props it)) = VPrim (PNum (cost it))
  /\ lookup "amazonFees" (json_props (item_props it))
     = VPrim (PNum (amazonFees it))
  /\ lookup "sold" (json_props (item_props it)) = VPrim (PNum (sold it)).
Proof.
  intros (Pk & Ck & Fk & Sk) W (_ & Ji & Jn & Pf & Cf & Ff & Sf).
  unfold item_props. cbn [app].
  split.
  { apply stable_lookup; [exact Ji |]. do 5 step_miss.
    apply lookup_json_absent. apply item_wf_no_key; [exact W | reflexivity]. }
  split.
  { step_miss. apply stable_lookup; [exact Jn |]. do 4 step_miss.
    apply lookup_json_absent. apply item_wf_no_key; [exact W | reflexivity]. }
  split.
  { do 2 step_miss. rewrite lookup_json_hit by discriminate.
    apply json_num_stable; assumption. }
  split.
  { do 3 step_miss. rewrite lookup_json_hit by discriminate.
    apply json_num_stable; assumption. }
  split.
  { do 4 step_miss. rewrite lookup_json_hit by discriminate.
    apply json_num_stable; assumption. }
  do 5 step_miss. rewrite lookup_json_hit by discriminate.
  apply json_num_stable; assumption.
Qed.

Lemma sanitize_item_json (h : Host) (it : Item) :
  item_ok it -> item_wf it -> survives_reload it ->
  exists it' : Item,
    sanitize h (item_json it) = Some it' /\ tuple it' = tuple it.
Proof.
  intros O W S.
  destruct (item_json_lookups_reload it O W S) as (Li & Ln & Lp & Lc & Lf & Ls).
  destruct O as (Pk & Ck & Fk & Sk).
  destruct S as (El & _).
  unfold item_json. rewrite El.
  remember (json_props (item_props it)) as props eqn:Ep.
  exists (mkItem (id it) (name it) (price it) (cost it) (amazonFees it)
                 (sold it) (other_props props) None).
  split; [| reflexivity].
  unfold sanitize. simpl.
  rewrite Li, Ln, Lp, Lc, Lf, Ls.
  rewrite !coerce_clean_number by assumption.
  reflexivity.
Qed.

Lemma sanitize_all_json (h : Host) (arr : list Item) :
  Forall item_ok arr -> Forall item_wf arr -> Forall survives_reload arr ->
  exists arr' : list Item,
    sanitize_all h (map item_json arr) = Some arr'
    /\ map tuple arr' = map tuple arr.
Proof.
  induction arr as [| it arr IH]; intros O W S.
  - exists []. split; reflexivity.
  - inversion O; inversion W; inversion S; subst.
    destruct (sanitize_item_json h it) as (it' & E1 & T1); try assumption.
    destruct (IH ltac:(assumption) ltac:(assumption) ltac:(assumption))
      as (arr' & E2 & T2).
    exists (it' :: arr'). simpl. rewrite E1, E2.
    split; [reflexivity |]. simpl. rewrite T1, T2. reflexivity.
Qed.

(** X4. A restart restores the ledger: in every state the component
    reaches whose items are plain objects with finite numbers and with an
    id and a name that JSON carries unharmed (or that are absent), the
    constructor run on the storage slot gives a collection with the same
    sequence of id, name, price, cost, amazonFees and sold. *)
Theorem X4_restart_restores_ledger :
  forall (h : Host) (st : App),
    reachable h st ->
    Forall survives_reload (items st) ->
    map tuple (items (constructor h (storage st))) = map tuple (items st).
Proof.
  intros h st R S.
  destruct (reachable_in_step h st R) as [Sy | L]; [| rewrite <- L; reflexivity].
  rewrite Sy.
  destruct (sanitize_all_json h (items st) (reachable_ok h st R)
                              (reachable_wf h st R) S) as (arr' & E & T).
  unfold constructor, load_items, JSON_stringify. simpl. rewrite E. exact T.
Qed.

Ltac reload_literal :=
  unfold survives_reload; simpl;
  split; [reflexivity |];
  split; [right; reflexivity |];
  split; [right; reflexivity |];
  repeat split; reflexivity.

Lemma X4_restart_witness :
  reachable sample_host two_items
  /\ Forall survives_reload (items two_items)
  /\ map tuple (items (constructor sample_host (storage two_items)))
     = map tuple (items two_items).
Proof.
  assert (R : reachable sample_host two_items).
  { apply reach_uploadJSON. apply reach_constructor. }
  assert (S : Forall survives_reload (items two_items)).
  { simpl.
    constructor; [reload_literal | constructor; [reload_literal | constructor]]. }
  split; [exact R |]. split; [exact S |].
  exact (X4_restart_restores_ledger sample_host two_items R S).
Defined.


(** ** How the handlers compose *)

Lemma filter_twice {A : Type} (p : A -> bool) (l : list A) :
  filter p (filter p l) = filter p l.
Proof.
  induction l as [| x l IH]; [reflexivity |].
  simpl. destruct (p x) eqn:E; simpl; [rewrite E, IH |]; auto.
Qed.

Lemma filter_swap {A : Type} (p q : A -> bool) (l : list A) :
  filter p (filter q l) = filter q (filter p l).
Proof.
  induction l as [| x l IH]; [reflexivity |].
  simpl. destruct (q x) eqn:Q, (p x) eqn:P; simpl;
    rewrite ?P, ?Q, IH; reflexivity.
Qed.

Lemma filter_all {A : Type} (p : A -> bool) (l : list A) :
  (forall x, In x l -> p x = true) -> filter p l = l.
Proof.
  induction l as [| x l IH]; intro H; [reflexivity |].
  simpl. rewrite (H x (or_introl eq_refl)). f_equal.
  apply IH. intros y Hy. apply H. right. exact Hy.
Qed.

(** X5. Adding an item (a valid form without id) and removing it again
    gives the collection back, provided the generated id is [===] to the id
    of no entry (when it is, the removal takes those entries away too). *)
Theorem X5_add_then_remove :
  forall (h : Host) (val : FormValue) (st : App),
    truthy (f_id val) = false ->
    (forall i, In i (items st) ->
               strict_eq (id i) (VPrim (PStr (new_id h (tick st)))) = false) ->
    items (remove (normalize h val (VPrim (PStr (new_id h (tick st)))))
                  (addOrUpdate h false val st))
    = items st.
Proof.
  intros h val st T F.
  unfold remove. cbn [items saveLocal set_items].
  rewrite (add_appends h val st T).
  rewrite filter_app. simpl. rewrite String.eqb_refl. simpl.
  rewrite app_nil_r. apply filter_all.
  intros i Hi. rewrite (F i Hi). reflexivity.
Qed.

Lemma X5_add_remove_witness :
  truthy (f_id (mkFormValue (PStr "") (PStr "Gadget") (PNum 20) (PNum 10)
                            (PNum 2) (PNum 1))) = false
  /\ items (remove
              (normalize sample_host
                 (mkFormValue (PStr "") (PStr "Gadget") (PNum 20) (PNum 10)
                              (PNum 2) (PNum 1))
                 (VPrim (PStr (new_id sample_host (tick one_item)))))
              (addOrUpdate sample_host false
                 (mkFormValue (PStr "") (PStr "Gadget") (PNum 20) (PNum 10)
                              (PNum 2) (PNum 1))
                 one_item))
     = items one_item.
Proof.
  split; [reflexivity |].
  apply X5_add_then_remove; [reflexivity |].
  intros i [<- | []]. reflexivity.
Defined.

(** X6. Removing is idempotent and the order of two removals does not
    matter: removing an item twice leaves what removing it once leaves, and
    removing [a] then [b] leaves what removing [b] then [a] leaves. *)
Theorem X6_remove_idempotent_commutes :
  forall (a b : Item) (st : App),
    items (remove a (remove a st)) = items (remove a st)
    /\ items (remove a (remove b st)) = items (remove b (remove a st))
    /\ (List.length (items (remove a st)) <= List.length (items st))%nat.
Proof.
  intros a b st. split; [apply filter_twice |].
  split; [apply filter_swap | apply filter_length_le].
Qed.

(** X7. Updating is idempotent and keeps the number of entries: saving the
    same valid form value with a truthy id twice leaves what saving it once
    leaves.  When the ids are compared as values (the id of the form is a
    primitive, or the ids of the collection are), every entry whose id is
    [===] to the id of the form becomes the same sanitised copy of the form
    value (which holds the six properties only), and the other entries stay
    as they are. *)
Theorem X7_update_idempotent :
  forall (h : Host) (val : FormValue) (st : App),
    truthy (f_id val) = true ->
    items (addOrUpdate h false val (addOrUpdate h false val st))
    = items (addOrUpdate h false val st)
    /\ List.length (items (addOrUpdate h false val st))
       = List.length (items st)
    /\ (by_value (f_id val) (items st) ->
        Forall2 (fun i i' =>
                   (strict_eq (id i) (f_id val) = true
                    /\ i' = normalize h val (f_id val))
                   \/ (strict_eq (id i) (f_id val) = false /\ i' = i))
                (items st) (items (addOrUpdate h false val st))).
Proof.
  intros h val st T. unfold addOrUpdate. rewrite T. simpl.
  split; [| split].
  - rewrite map_map. apply map_ext. intro i.
    destruct (strict_eq (id i) (f_id val)) eqn:E.
    + simpl. destruct (strict_eq (f_id val) (f_id val)); reflexivity.
    + rewrite E. reflexivity.
  - apply length_map.
  - intros _.
    induction (items st) as [| i arr IH]; simpl; constructor; [| exact IH].
    destruct (strict_eq (id i) (f_id val)); auto.
Qed.

Lemma X7_update_witness :
  truthy (f_id form_b_new) = true
  /\ by_value (f_id form_b_new) (items ledger_ab)
  /\ items (addOrUpdate sample_host false form_b_new
              (addOrUpdate sample_host false form_b_new ledger_ab))
     = items (addOrUpdate sample_host false form_b_new ledger_ab)
  /\ map tuple (items ledger_ab)
     = [(VPrim (PStr "a"), VPrim (PStr "Widget"), 10, 4, 1, 3)%float;
        (VPrim (PStr "b"), VPrim (PStr "Gadget"), 20, 10, 2, 1)%float]
  /\ map tuple (items (addOrUpdate sample_host false form_b_new ledger_ab))
     = [(VPrim (PStr "a"), VPrim (PStr "Widget"), 10, 4, 1, 3)%float;
        (VPrim (PStr "b"), VPrim (PStr "Gizmo"), 25, 12, 3, 2)%float].
Proof.
  split; [reflexivity |]. split; [left; reflexivity |].
  split; [| split; reflexivity].
  exact (proj1 (X7_update_idempotent sample_host form_b_new ledger_ab
                                     eq_refl)).
Defined.

Lemma NoDup_map_In_inj {A B : Type} (f : A -> B) (l : list A) :
  NoDup (map f l) ->
  forall x y, In x l -> In y l -> f x = f y -> x = y.
Proof.
  induction l as [| a l IH]; simpl; intros ND x y Hx Hy E; [contradiction |].
  inversion ND as [| ? ? Nin ND']; subst.
  destruct Hx as [-> | Hx], Hy as [-> | Hy]; auto.
  - exfalso. apply Nin. rewrite E. apply in_map. exact Hy.
  - exfalso. apply Nin. rewrite <- E. apply in_map. exact Hx.
Qed.

Lemma prim_eqb_refl (p : prim) : prim_eqb p p = true.
Proof.
  destruct p as [| | b | x | s]; simpl; try reflexivity.
  - destruct b; reflexivity.
  - apply FloatAxioms.Leibniz.eqb_spec. reflexivity.
  - apply String.eqb_refl.
Qed.

Lemma value_eqb_refl : forall v : value, value_eqb v v = true.
Proof.
  fix IH 1. intros [p | l | ps]; simpl.
  - apply prim_eqb_refl.
  - induction l as [| x l IHl]; [reflexivity |].
    rewrite IH, IHl. reflexivity.
  - induction ps as [| [k x] ps IHps]; [reflexivity |].
    rewrite String.eqb_refl, IH, IHps. reflexivity.
Qed.

(** A truthy value is [===] to itself ([NaN], which is not, is falsy). *)
Lemma strict_eq_refl_truthy (v : value) :
  truthy v = true -> strict_eq v v = true.
Proof.
  destruct v as [[| | b | x | s] | l | ps]; simpl; intro T;
    try discriminate.
  - rewrite T. reflexivity.
  - apply num_truthy_true in T. destruct T as [_ N].
    unfold is_nan in N. rewrite negb_false_iff in N. exact N.
  - apply String.eqb_refl.
  - apply (value_eqb_refl (VArr l)).
  - apply (value_eqb_refl (VObj ps)).
Qed.

Lemma patch_defined (v old : value) : v <> undefined -> patch v old = v.
Proof.
  intro N. destruct v as [[| | b | x | s] | l | ps]; try reflexivity.
  exfalso. apply N. reflexivity.
Qed.

(** X8. Editing an entry and saving the form as it stands changes none of
    the six fields of any entry: in a reachable state whose ids are
    pairwise distinct, for an entry with a truthy id and a name, [edit]
    followed by [addOrUpdate] leaves the sequence of id, name, price, cost,
    amazonFees and sold as it was, whether the form is valid or not.  When
    the form is valid the saved entry is a fresh object that holds these
    six properties only. *)
Theorem X8_edit_then_save :
  forall (h : Host) (form : FormValue) (item : Item) (st : App),
    reachable h st ->
    In item (items st) ->
    truthy (id item) = true ->
    name item <> undefined ->
    distinct_ids (items st) ->
    (forall invalid : bool,
        map tuple (items (addOrUpdate h invalid (edit item form) st))
        = map tuple (items st))
    /\ In (mkItem (id item) (name item) (price item) (cost item)
                  (amazonFees item) (sold item) [] None)
          (items (addOrUpdate h false (edit item form) st)).
Proof.
  intros h form item st R I T Nn D.
  assert (O : item_ok item).
  { apply reachable_ok in R. rewrite Forall_forall in R. auto. }
  assert (Ei : f_id (edit item form) = id item).
  { simpl. apply patch_defined. apply truthy_defined. exact T. }
  assert (En : normalize h (edit item form) (id item)
               = mkItem (id item) (name item) (price item) (cost item)
                        (amazonFees item) (sold item) [] None).
  { destruct O as (P & C & F & S). unfold normalize. simpl.
    rewrite (patch_defined _ _ Nn), !or0_id by assumption. reflexivity. }
  split.
  - intros [|]; [reflexivity |].
    unfold addOrUpdate. rewrite Ei, T. simpl. rewrite En.
    rewrite map_map. apply map_ext_in. intros i Hi.
    destruct (strict_eq (id i) (id item)) eqn:E; [| reflexivity].
    apply strict_eq_truthy in E; [| exact T].
    rewrite (NoDup_map_In_inj id (items st) D i item Hi I E). reflexivity.
  - unfold addOrUpdate. rewrite Ei, T. simpl. rewrite En.
    apply in_map_iff. exists item. split; [| exact I].
    rewrite (strict_eq_refl_truthy _ T). reflexivity.
Qed.

Lemma X8_edit_witness :
  reachable sample_host
    (uploadJSON sample_host
       (Some (TDoc (VArr [entry "a" "Widget" 10 4 1 3]))) first_start)
  /\ distinct_ids
       (items (uploadJSON sample_host
                 (Some (TDoc (VArr [entry "a" "Widget" 10 4 1 3])))
                 first_start))
  /\ map tuple
         (items (addOrUpdate sample_host false
                   (edit (mkItem (VPrim (PStr "a")) (VPrim (PStr "Widget"))
                                 10 4 1 3 [] None) form_b)
                   (uploadJSON sample_host
                      (Some (TDoc (VArr [entry "a" "Widget" 10 4 1 3])))
                      first_start)))
     = [(VPrim (PStr "a"), VPrim (PStr "Widget"), 10, 4, 1, 3)%float].
Proof.
  assert (R : reachable sample_host
                (uploadJSON sample_host
                   (Some (TDoc (VArr [entry "a" "Widget" 10 4 1 3])))
                   first_start)).
  { apply reach_uploadJSON. apply reach_constructor. }
  assert (I : In (mkItem (VPrim (PStr "a")) (VPrim (PStr "Widget"))
                         10 4 1 3 [] None)
                 (items (uploadJSON sample_host
                           (Some (TDoc (VArr [entry "a" "Widget" 10 4 1 3])))
                           first_start))).
  { left. reflexivity. }
  assert (D : distinct_ids
                (items (uploadJSON sample_host
                          (Some (TDoc (VArr [entry "a" "Widget" 10 4 1 3])))
                          first_start))).
  { unfold distinct_ids. simpl. constructor; [intros [] | constructor]. }
  split; [exact R |]. split; [exact D |].
  refine (proj1 (X8_edit_then_save sample_host form_b _ _ R I
                                   eq_refl _ D) false).
  discriminate.
Defined.


(** ** Totals after an addition *)

Lemma or0_idem (x : float) : or0 (or0 x) = or0 x.
Proof. apply or0_id, or0_clean. Qed.

(** X9. Adding an item (a valid form without id) moves each total by the
    contribution of the new item: [totalSold] grows by its [sold], [totalRevenue] by
    [price * sold], [totalCost] by [cost * sold] and [totalFees] by
    [amazonFees * sold] (one more double addition at the end of the sum). *)
Theorem X9_totals_after_add :
  forall (h : Host) (val : FormValue) (st : App),
    truthy (f_id val) = false ->
    let n := normalize h val (VPrim (PStr (new_id h (tick st)))) in
    let st' := addOrUpdate h false val st in
    totalSold (items st') = (totalSold (items st) + sold n)%float
    /\ totalRevenue (items st')
       = (totalRevenue (items st) + price n * sold n)%float
    /\ totalCost (items st')
       = (totalCost (items st) + cost n * sold n)%float
    /\ totalFees (items st')
       = (totalFees (items st) + amazonFees n * sold n)%float.
Proof.
  intros h val st T n st'. unfold st', n.
  rewrite (add_appends h val st T).
  unfold totalSold, totalRevenue, totalCost, totalFees.
  rewrite !fold_left_app. simpl.
  rewrite !or0_idem. repeat split; reflexivity.
Qed.

Lemma X9_totals_witness :
  truthy (f_id (mkFormValue (PStr "") (PStr "Gadget") (PNum 20) (PNum 10)
                            (PNum 2) (PNum 1))) = false
  /\ totalSold
       (items (addOrUpdate sample_host false
                 (mkFormValue (PStr "") (PStr "Gadget") (PNum 20) (PNum 10)
                              (PNum 2) (PNum 1))
                 two_items))
     = (totalSold (items two_items) + 1)%float.
Proof.
  split; [reflexivity |].
  exact (proj1 (X9_totals_after_add sample_host
                  (mkFormValue (PStr "") (PStr "Gadget") (PNum 20) (PNum 10)
                               (PNum 2) (PNum 1))
                  two_items eq_refl)).
Defined.

(** ** Load and import on the same text *)

Lemma import_all_truthy (h : Host) (entries : list value) :
  forall arr,
    sanitize_all h entries = Some arr ->
    Forall (fun it => truthy (id it) = true) arr ->
    forall k, import_all h entries k = (Some arr, k).
Proof.
  induction entries as [| p rest IH]; simpl; intros arr H T k.
  - injection H as <-. reflexivity.
  - bind_inv H. injection H as <-. inversion T; subst.
    unfold import_entry. rewrite E.
    match goal with Ht : truthy (id _) = true |- _ => rewrite Ht end.
    rewrite (IH _ eq_refl) by assumption. reflexivity.
Qed.

(** X10. On a text whose entries all carry a truthy id, import and load
    agree: the import stores the very collection the constructor would
    load from that text, and generates no identifier. *)
Theorem X10_import_agrees_with_load :
  forall (h : Host) (entries : list value) (arr : list Item) (st : App),
    sanitize_all h entries = Some arr ->
    Forall (fun it => truthy (id it) = true) arr ->
    items (uploadJSON h (Some (TDoc (VArr entries))) st) = arr
    /\ items (constructor h (Some (TDoc (VArr entries)))) = arr
    /\ tick (uploadJSON h (Some (TDoc (VArr entries))) st) = tick st.
Proof.
  intros h entries arr st S T.
  pose proof (import_all_truthy h entries arr S T (tick st)) as E.
  rewrite (uploadJSON_array h entries st arr (tick st) E).
  split; [reflexivity |]. split; [| reflexivity].
  unfold constructor, load_items. simpl. rewrite S. reflexivity.
Qed.

Lemma X10_import_load_witness :
  sanitize_all sample_host
    [entry "a" "Widget" 10 4 1 3; entry "a" "Gadget" 20 10 2 1]
  = Some (items two_items)
  /\ Forall (fun it => truthy (id it) = true) (items two_items)
  /\ items (constructor sample_host (Some file_duplicate)) = items two_items.
Proof.
  assert (S : sanitize_all sample_host
                [entry "a" "Widget" 10 4 1 3; entry "a" "Gadget" 20 10 2 1]
              = Some (items two_items)) by reflexivity.
  assert (T : Forall (fun it => truthy (id it) = true) (items two_items)).
  { repeat constructor. }
  split; [exact S |]. split; [exact T |].
  exact (proj1 (proj2 (X10_import_agrees_with_load sample_host _ _
                         first_start S T))).
Defined.


(** ** Identifiers *)

(** X11. The base-36 rendering of a time stamp reads back as the time
    stamp, so two different (non-negative) time stamps never give the same
    rendering. *)
Theorem X11_toString36_injective :
  forall z1 z2 : Z,
    (0 <= z1)%Z -> (0 <= z2)%Z ->
    toString36 z1 = toString36 z2 -> z1 = z2.
Proof.
  intros z1 z2 H1 H2 E.
  pose proof (toString36_decode z1 H1) as D1.
  pose proof (toString36_decode z2 H2) as D2.
  rewrite E, D2 in D1. apply Z2N.inj; auto.
Qed.

Lemma X11_toString36_witness :
  (0 <= 1700000000000)%Z
  /\ toString36 1700000000000 = "loyw3v28"
  /\ (toString36 1700000000000 = toString36 (1700000000000 + 0) ->
      (1700000000000 = 1700000000000 + 0)%Z).
Proof.
  split; [lia |]. split; [reflexivity |].
  apply X11_toString36_injective; lia.
Defined.

Lemma NoDup_map_injective {A B : Type} (f : A -> B) (l : list A) :
  (forall x y, f x = f y -> x = y) -> NoDup l -> NoDup (map f l).
Proof.
  intros Inj ND. induction ND as [| x l Nin _ IH]; simpl; constructor; auto.
  intro I. apply in_map_iff in I. destruct I as [y [E Hy]].
  apply Inj in E. subst y. contradiction.
Qed.

Lemma import_all_fresh (h : Host) (entries : list value) :
  Forall (fun p => forall it0, sanitize h p = Some it0 ->
                               truthy (id it0) = false) entries ->
  forall k k' arr,
    import_all h entries k = (Some arr, k') ->
    map id arr
    = map (fun j => VPrim (PStr (new_id h j))) (seq k (List.length entries))
    /\ k' = (k + List.length entries)%nat.
Proof.
  induction 1 as [| p rest Hp _ IH]; simpl; intros k k' arr H.
  - injection H as <- <-. split; [reflexivity | lia].
  - unfold import_entry in H.
    destruct (sanitize h p) as [it0 |] eqn:E; [| discriminate].
    rewrite (Hp it0 eq_refl) in H.
    destruct (import_all h rest (S k)) as [[arr1 |] k2] eqn:E2;
      [| discriminate].
    injection H as <- <-.
    destruct (IH _ _ _ E2) as [M K]. simpl. rewrite M.
    split; [reflexivity | lia].
Qed.

(** X12. One import draws a new identifier for each entry that has none:
    when no entry of the file carries a truthy id, the stored ids are the
    identifiers of the successive draws, as many as there are entries; if
    the host never produces the same identifier twice they are pairwise
    distinct. *)
Theorem X12_import_generates_distinct_ids :
  forall (h : Host) (entries : list value) (st : App) (arr : list Item)
         (k : nat),
    Forall (fun p => forall it0, sanitize h p = Some it0 ->
                                 truthy (id it0) = false) entries ->
    import_all h entries (tick st) = (Some arr, k) ->
    items (uploadJSON h (Some (TDoc (VArr entries))) st) = arr
    /\ tick (uploadJSON h (Some (TDoc (VArr entries))) st)
       = (tick st + List.length entries)%nat
    /\ map id arr
       = map (fun j => VPrim (PStr (new_id h j)))
             (seq (tick st) (List.length entries))
    /\ ((forall i j, new_id h i = new_id h j -> i = j) -> distinct_ids arr).
Proof.
  intros h entries st arr k F E.
  destruct (import_all_fresh h entries F _ _ _ E) as [M K].
  rewrite (uploadJSON_array h entries st arr k E).
  split; [reflexivity |]. split; [exact K |]. split; [exact M |].
  intro Inj. unfold distinct_ids. rewrite M.
  apply NoDup_map_injective; [| apply seq_NoDup].
  intros i j Eij. injection Eij as Eij. auto.
Qed.

Lemma X12_import_ids_witness :
  Forall (fun p => forall it0, sanitize sample_host p = Some it0 ->
                               truthy (id it0) = false)
         [VObj [("name", VPrim (PStr "Widget"))];
          VObj [("name", VPrim (PStr "Gadget"))]]
  /\ map id
         (items (uploadJSON sample_host
                   (Some (TDoc (VArr [VObj [("name", VPrim (PStr "Widget"))];
                                      VObj [("name", VPrim (PStr "Gadget"))]])))
                   first_start))
     = [VPrim (PStr "loyw3v284fzyo"); VPrim (PStr "loyw3v294fzyo")].
Proof.
  assert (F : Forall (fun p => forall it0, sanitize sample_host p = Some it0 ->
                                           truthy (id it0) = false)
                     [VObj [("name", VPrim (PStr "Widget"))];
                      VObj [("name", VPrim (PStr "Gadget"))]]).
  { repeat constructor; intros it0 H; injection H as <-; reflexivity. }
  split; [exact F |].
  destruct (X12_import_generates_distinct_ids sample_host _ first_start
              _ 2%nat F eq_refl) as (Ei & _ & M & _).
  rewrite Ei. exact M.
Defined.


(** ** CSV export: failure and reading back *)

Lemma all_some_none {A : Type} (l : list (option A)) :
  all_some l = None <-> In None l.
Proof.
  induction l as [| x l IH]; simpl.
  - split; [discriminate | contradiction].
  - destruct x as [y |].
    + destruct (all_some l) as [ys |].
      * split; [discriminate |]. intros [E | I]; [discriminate E |].
        apply IH in I. discriminate I.
      * split; [intros _; right; apply IH; reflexivity | reflexivity].
    + split; [intros _; left; reflexivity | reflexivity].
Qed.

Lemma row_text_none (h : Host) (it : Item) :
  row_text h (row it) = None <-> ToString h (name it) = None.
Proof.
  unfold row_text, row. simpl. unfold cell_text at 1.
  destruct (ToString h (name it)) as [s |]; simpl.
  - split; discriminate.
  - split; reflexivity.
Qed.

(** X13. The CSV export fails (a [TypeError], no file is offered) exactly
    when the name of some item does not convert to a string; otherwise it
    offers a file. *)
Theorem X13_exportCSV_fails_iff :
  forall (h : Host) (st : App),
    exportCSV h st = None
    <-> Exists (fun it => ToString h (name it) = None) (items st).
Proof.
  intros h st. unfold exportCSV, csv.
  assert (A : all_some (map (row_text h) (allRows (items st))) = None
              <-> Exists (fun it => ToString h (name it) = None) (items st)).
  { rewrite all_some_none, Exists_exists. unfold allRows. simpl.
    rewrite map_app, in_app_iff. simpl. split.
    - intros [E | [I | [E | []]]]; try discriminate E.
      apply in_map_iff in I. destruct I as [r [E I]].
      apply in_map_iff in I. destruct I as [it [<- I]].
      exists it. split; [exact I |]. apply row_text_none. exact E.
    - intros [it [I E]]. right. left.
      apply in_map_iff. exists (row it). split.
      + apply row_text_none. exact E.
      + apply in_map. exact I. }
  destruct (all_some (map (row_text h) (allRows (items st)))) as [lines |].
  - split; [discriminate |]. intro E. apply A in E. discriminate E.
  - split; [intros _; apply A; reflexivity | reflexivity].
Qed.

Lemma read_cell_escape (s rest : string) :
  (rest = "" \/ exists c r, rest = String c r /\ c <> dquote) ->
  read_cell (escape s ++ String dquote rest) = (s, rest).
Proof.
  intro R. induction s as [| c s IH].
  - cbn [escape append read_cell]. rewrite Ascii.eqb_refl.
    destruct R as [-> | (c & r & -> & N)]; [reflexivity |].
    destruct (Ascii.eqb_spec c dquote); [contradiction | reflexivity].
  - cbn [escape]. destruct (Ascii.eqb c dquote) eqn:E.
    + apply Ascii.eqb_eq in E. subst c.
      cbn [append read_cell]. rewrite !Ascii.eqb_refl.
      rewrite IH. reflexivity.
    + cbn [append read_cell]. rewrite E, IH. reflexivity.
Qed.

Lemma csv_line_cons (c : string) (cells : list string) :
  csv_line (c :: cells)
  = String dquote (escape c ++ String dquote (csv_rest cells)).
Proof.
  unfold csv_line, csv_rest, wrap.
  destruct cells as [| d cells]; simpl.
  - reflexivity.
  - f_equal. rewrite string_app_assoc. reflexivity.
Qed.

Lemma csv_rest_shape (cells : list string) :
  csv_rest cells = ""
  \/ exists c r, csv_rest cells = String c r /\ c <> dquote.
Proof.
  destruct cells as [| d cells]; [left; reflexivity | right].
  exists ","%char, (csv_line (d :: cells)). split; [reflexivity | discriminate].
Qed.

Lemma csv_line_injective (cells1 : list string) :
  forall cells2, csv_line cells1 = csv_line cells2 -> cells1 = cells2.
Proof.
  induction cells1 as [| c1 r1 IH]; intros [| c2 r2] E.
  - reflexivity.
  - rewrite csv_line_cons in E. discriminate E.
  - rewrite csv_line_cons in E. discriminate E.
  - rewrite !csv_line_cons in E. injection E as E.
    apply (f_equal read_cell) in E.
    rewrite !read_cell_escape in E by apply csv_rest_shape.
    injection E as -> E. f_equal.
    destruct r1 as [| d1 r1], r2 as [| d2 r2]; try discriminate E.
    + reflexivity.
    + apply IH. simpl in E. injection E as E. exact E.
Qed.

Lemma row_text_cells (h : Host) (r : list value) (line : string) :
  row_text h r = Some line ->
  exists cells, all_some (map (ToString h) r) = Some cells
                /\ line = csv_line cells.
Proof.
  unfold row_text. revert line.
  assert (A : forall r cs,
             all_some (map (cell_text h) r) = Some cs ->
             exists cells, all_some (map (ToString h) r) = Some cells
                           /\ cs = map (fun s => wrap (escape s)) cells).
  { clear r. induction r as [| v r IH]; simpl; intros cs H.
    - injection H as <-. exists []. split; reflexivity.
    - unfold cell_text at 1 in H.
      destruct (ToString h v) as [s |]; [| discriminate]. simpl in H.
      destruct (all_some (map (cell_text h) r)) as [cs0 |]; [| discriminate].
      injection H as <-. destruct (IH cs0 eq_refl) as (cells & E & ->).
      exists (s :: cells). rewrite E. split; reflexivity. }
  intros line H.
  destruct (all_some (map (cell_text h) r)) as [cs |] eqn:E; [| discriminate].
  injection H as <-. destruct (A r cs E) as (cells & Ec & ->).
  exists cells. split; [exact Ec | reflexivity].
Qed.

(** X14. A CSV line loses nothing: two rows that export to the same line
    have the same cell texts; the line of a list of texts determines the
    list; and the quoting lets each cell be read back, commas and double
    quotes inside it included, up to its closing double quote. *)
Theorem X14_csv_line_reads_back :
  (forall (h : Host) (r1 r2 : list value) (line : string),
      row_text h r1 = Some line ->
      row_text h r2 = Some line ->
      all_some (map (ToString h) r1) = all_some (map (ToString h) r2))
  /\ (forall cells1 cells2 : list string,
         csv_line cells1 = csv_line cells2 -> cells1 = cells2)
  /\ (forall s rest : string,
         (rest = "" \/ exists c r, rest = String c r /\ c <> dquote) ->
         read_cell (escape s ++ String dquote rest) = (s, rest)).
Proof.
  split; [| split; [exact csv_line_injective | exact read_cell_escape]].
  intros h r1 r2 line H1 H2.
  destruct (row_text_cells h r1 line H1) as (c1 & E1 & L1).
  destruct (row_text_cells h r2 line H2) as (c2 & E2 & L2).
  assert (c1 = c2) by (apply csv_line_injective; congruence). subst c2.
  congruence.
Qed.

Lemma X14_csv_line_witness :
  row_text sample_host [VPrim (PStr "Wid,get"); VPrim (PNum 10)]
  = Some (csv_line ["Wid,get"; "10"])
  /\ all_some (map (ToString sample_host)
                   [VPrim (PStr "Wid,get"); VPrim (PNum 10)])
     = Some ["Wid,get"; "10"].
Proof.
  assert (H : row_text sample_host [VPrim (PStr "Wid,get"); VPrim (PNum 10)]
              = Some (csv_line ["Wid,get"; "10"])) by reflexivity.
  split; [exact H |].
  rewrite (proj1 X14_csv_line_reads_back sample_host
                 [VPrim (PStr "Wid,get"); VPrim (PNum 10)]
                 [VPrim (PStr "Wid,get"); VPrim (PStr "10")]
                 _ H eq_refl).
  reflexivity.
Defined.


(** ** A second JSON round trip *)

Lemma json_num_idem (x : float) : json_of (json_num x) = json_num x.
Proof.
  unfold json_num. destruct (is_finite x) eqn:F; [| reflexivity].
  destruct (is_zero x) eqn:Z; [reflexivity |].
  simpl. unfold json_num. rewrite F, Z. reflexivity.
Qed.

Lemma json_of_defined (v : value) : json_of v <> undefined.
Proof.
  destruct v as [[| | b | x | s] | l | ps]; simpl; try discriminate.
  unfold json_num. destruct (is_finite x); [destruct (is_zero x) |];
    discriminate.
Qed.

Lemma json_of_object (ps : list (string * value)) :
  json_of (VObj ps) = VObj (json_props ps).
Proof. reflexivity. Qed.

Lemma json_props_cons (k : string) (v : value) (rest : list (string * value)) :
  v <> undefined ->
  json_props ((k, v) :: rest) = (k, json_of v) :: json_props rest.
Proof.
  intro N. destruct v as [[| | b | x | s] | l | ps]; try reflexivity.
  exfalso. apply N. reflexivity.
Qed.

Lemma json_of_idem : forall v : value, json_of (json_of v) = json_of v.
Proof.
  fix IH 1. intros [p | l | ps].
  - destruct p as [| | b | x | s]; try reflexivity.
    apply json_num_idem.
  - simpl. f_equal. rewrite map_map.
    induction l as [| x l IHl]; [reflexivity |].
    simpl. rewrite IH, IHl. reflexivity.
  - rewrite !json_of_object. f_equal.
    induction ps as [| [k v] ps IHps]; [reflexivity |].
    destruct (value_eqb v undefined) eqn:U.
    + apply value_eqb_eq in U. subst v. simpl. exact IHps.
    + assert (N : v <> undefined).
      { intros ->. discriminate U. }
      rewrite (json_props_cons k v ps N).
      rewrite (json_props_cons k (json_of v) _ (json_of_defined v)).
      rewrite IH, IHps. reflexivity.
Qed.

Lemma lookup_json_shape (k : string) (ps : list (string * value)) :
  lookup k (json_props ps) = undefined
  \/ exists v, lookup k (json_props ps) = json_of v.
Proof.
  induction ps as [| [k' v] ps IH]; [left; reflexivity |].
  destruct (String.eqb k k') eqn:E.
  - apply String.eqb_eq in E. subst k'.
    destruct (value_eqb v undefined) eqn:U.
    + apply value_eqb_eq in U. subst v. simpl. exact IH.
    + right. exists v. apply lookup_json_hit. intros ->. discriminate U.
  - rewrite lookup_json_miss by exact E. exact IH.
Qed.

Lemma lookup_json_stable (k : string) (ps : list (string * value)) :
  lookup k (json_props ps) = undefined
  \/ json_of (lookup k (json_props ps)) = lookup k (json_props ps).
Proof.
  destruct (lookup_json_shape k ps) as [U | [v E]]; [left; exact U |].
  right. rewrite E. apply json_of_idem.
Qed.

Lemma or0_finite (x : float) : is_finite x = true -> is_finite (or0 x) = true.
Proof.
  intro F. destruct (or0_cases x) as [[_ E] | [_ E]]; rewrite E;
    [exact F | reflexivity].
Qed.

Lemma coerce_json_num (h : Host) (x : float) :
  exists y, coerce h (json_num x) = Some y /\ is_finite y = true.
Proof.
  unfold json_num. destruct (is_finite x) eqn:F.
  - destruct (is_zero x); [exists zero; split; reflexivity |].
    exists (or0 x). split; [reflexivity | apply or0_finite; exact F].
  - exists zero. split; reflexivity.
Qed.

(** The import of the object written for a plain item succeeds, and what
    it stores survives any further round trip. *)
Lemma import_plain_item (h : Host) (it : Item) (k : nat) :
  elements it = None ->
  exists it' k',
    import_entry h (item_json it) k = (Some it', k') /\ survives_json it'.
Proof.
  intro El. unfold item_json. rewrite El.
  remember (json_props (item_props it)) as props eqn:Ep.
  assert (Lp : lookup "price" props = json_num (price it)).
  { subst props. unfold item_props. cbn [app]. do 2 step_miss.
    rewrite lookup_json_hit by discriminate. reflexivity. }
  assert (Lc : lookup "cost" props = json_num (cost it)).
  { subst props. unfold item_props. cbn [app]. do 3 step_miss.
    rewrite lookup_json_hit by discriminate. reflexivity. }
  assert (Lf : lookup "amazonFees" props = json_num (amazonFees it)).
  { subst props. unfold item_props. cbn [app]. do 4 step_miss.
    rewrite lookup_json_hit by discriminate. reflexivity. }
  assert (Ls : lookup "sold" props = json_num (sold it)).
  { subst props. unfold item_props. cbn [app]. do 5 step_miss.
    rewrite lookup_json_hit by discriminate. reflexivity. }
  destruct (coerce_json_num h (price it)) as (p & Ep' & Fp).
  destruct (coerce_json_num h (cost it)) as (c & Ec' & Fc).
  destruct (coerce_json_num h (amazonFees it)) as (f & Ef' & Ff).
  destruct (coerce_json_num h (sold it)) as (s & Es' & Fs).
  assert (Jn : lookup "name" props = undefined
               \/ json_of (lookup "name" props) = lookup "name" props)
    by (subst props; apply lookup_json_stable).
  assert (Ji : lookup "id" props = undefined
               \/ json_of (lookup "id" props) = lookup "id" props)
    by (subst props; apply lookup_json_stable).
  unfold import_entry, sanitize. simpl.
  rewrite Lp, Lc, Lf, Ls, Ep', Ec', Ef', Es'. simpl.
  destruct (truthy (lookup "id" props)) eqn:T.
  - eexists. eexists. split; [reflexivity |].
    unfold survives_json. simpl.
    destruct Ji as [U | Ji]; [rewrite U in T; discriminate T |].
    repeat split; auto.
  - eexists. eexists. split; [reflexivity |].
    unfold survives_json. simpl.
    split; [reflexivity |].
    split; [apply new_id_truthy |].
    repeat split; auto.
Qed.

Lemma import_plain_all (h : Host) (arr : list Item) :
  Forall (fun it => elements it = None) arr ->
  forall k, exists arr' k',
      import_all h (map item_json arr) k = (Some arr', k')
      /\ Forall survives_json arr'.
Proof.
  induction 1 as [| it arr El _ IH]; intro k.
  - exists [], k. split; [reflexivity | constructor].
  - destruct (import_plain_item h it k El) as (it' & k1 & E1 & S1).
    destruct (IH k1) as (arr' & k2 & E2 & S2).
    exists (it' :: arr'), k2. simpl. rewrite E1, E2.
    split; [reflexivity | constructor; assumption].
Qed.

(** X15. The JSON round trip settles after one pass: for every ledger of
    plain objects, whatever its fields, the collection that comes out of
    export, parse and import goes through a second export, parse and import
    with the same sequence of id, name, price, cost, amazonFees and sold
    (the first pass may change them: an infinite number becomes 0, a
    missing id is generated). *)
Theorem X15_second_roundtrip_changes_nothing :
  forall (h : Host) (st st2 st3 : App),
    Forall (fun it => elements it = None) (items st) ->
    let st1 := uploadJSON h (Some (snd (downloadJSON st))) st2 in
    map tuple (items (uploadJSON h (Some (snd (downloadJSON st1))) st3))
    = map tuple (items st1)
    /\ List.length (items st1) = List.length (items st).
Proof.
  intros h st st2 st3 P st1.
  destruct (import_plain_all h (items st) P (tick st2))
    as (arr' & k' & E & S).
  assert (E1 : items st1 = arr').
  { unfold st1, uploadJSON, downloadJSON, JSON_stringify. simpl.
    rewrite E. reflexivity. }
  split.
  - apply roundtrip_tuples; rewrite E1.
    + eapply import_all_ok. exact E.
    + eapply (import_all_inv item_wf sanitize_wf set_id_wf). exact E.
    + exact S.
  - rewrite E1.
    pose proof (import_all_spec h _ _ _ _ E) as F2.
    apply Forall2_length in F2. rewrite length_map in F2. auto.
Qed.

Lemma X15_second_roundtrip_witness :
  Forall (fun it => elements it = None) (items one_item)
  /\ map cost (items (uploadJSON sample_host
                        (Some (snd (downloadJSON one_item))) first_start))
     = [zero]
  /\ map tuple
         (items (uploadJSON sample_host
                   (Some (snd (downloadJSON
                                 (uploadJSON sample_host
                                    (Some (snd (downloadJSON one_item)))
                                    first_start))))
                   first_start))
     = map tuple
           (items (uploadJSON sample_host
                     (Some (snd (downloadJSON one_item))) first_start)).
Proof.
  assert (P : Forall (fun it => elements it = None) (items one_item)).
  { repeat constructor. }
  split; [exact P |]. split; [reflexivity |].
  exact (proj1 (X15_second_roundtrip_changes_nothing sample_host one_item
                  first_start first_start P)).
Defined.
